(** * dbt-checkpoint: the column-name contract hook

    A shallow embedding of [dbt_checkpoint/check_column_name_contract.py]
    and the properties of its contract check.

    Conventions of the embedding:
    - Python [str] is [string]; the text is ASCII, so [str.lower] and
      [str.upper] act on the 26 letters only.
    - a parsed JSON document is a [json] value; a Python [dict] is an
      association list in insertion order (iteration order is the order of
      the diagnostics).
    - [print] appends a structured diagnostic to the output carried by the
      state; an exception ends the run and keeps what was printed before.
    - [re.match] is modelled by a matcher on regular-expression syntax trees;
      the translation of the pattern text into a tree is Python's and is a
      parameter of the development. *)

From Stdlib Require Import String Ascii List Bool ZArith Lia.
Import ListNotations.
Open Scope string_scope.
Set Warnings "-register-all".

(** ** Text *)

Module Text.

Definition is_upper (c : ascii) : bool :=
  let n := nat_of_ascii c in (65 <=? n)%nat && (n <=? 90)%nat.

Definition is_lower (c : ascii) : bool :=
  let n := nat_of_ascii c in (97 <=? n)%nat && (n <=? 122)%nat.

Definition lower_char (c : ascii) : ascii :=
  if is_upper c then ascii_of_nat (nat_of_ascii c + 32) else c.

Definition upper_char (c : ascii) : ascii :=
  if is_lower c then ascii_of_nat (nat_of_ascii c - 32) else c.

(** [s.lower()], for ASCII text: only the 26 letters have a case here. *)
Fixpoint lower (s : string) : string :=
  match s with
  | EmptyString => EmptyString
  | String c r => String (lower_char c) (lower r)
  end.

(** [s.upper()], for ASCII text. *)
Fixpoint upper (s : string) : string :=
  match s with
  | EmptyString => EmptyString
  | String c r => String (upper_char c) (upper r)
  end.

(** [x in xs] for a list of strings *)
Definition str_in (x : string) (xs : list string) : bool :=
  existsb (String.eqb x) xs.

(** [c in s] for a character and a string *)
Fixpoint has_char (c : ascii) (s : string) : bool :=
  match s with
  | EmptyString => false
  | String d r => Ascii.eqb c d || has_char c r
  end.

End Text.

(** ** The list splitter: [re.split(r', | (?!.*?, )|,|\|', s)] *)

Module Split.

Definition comma : ascii := ","%char.
Definition space : ascii := " "%char.
Definition pipe : ascii := "|"%char.
Definition newline : ascii := "010"%char.

(** The look-ahead body [.*?, ] tried at the head of [s]: some [", "]
    occurs in [s] with no line break before it ([.] does not match a
    line break). *)
Fixpoint comma_space_ahead (s : string) : bool :=
  match s with
  | EmptyString => false
  | String c r =>
      match r with
      | String d _ =>
          if Ascii.eqb c comma && Ascii.eqb d space then true
          else if Ascii.eqb c newline then false
          else comma_space_ahead r
      | EmptyString => false
      end
  end.

(** Push a character on the token being read. *)
Definition push (c : ascii) (toks : list string) : list string :=
  match toks with
  | t :: ts => String c t :: ts
  | [] => [String c EmptyString]
  end.

(** At each position the alternatives are tried in the order of the
    expression: [", "], then a space with no [", "] later on its line,
    then [","], then ["|"]; a character that starts no separator belongs
    to the current token. *)
Fixpoint re_split (s : string) : list string :=
  match s with
  | EmptyString => [EmptyString]
  | String c r =>
      if Ascii.eqb c comma then
        match r with
        | String d r' =>
            if Ascii.eqb d space then EmptyString :: re_split r'
            else EmptyString :: re_split r
        | EmptyString => EmptyString :: re_split r
        end
      else if Ascii.eqb c space then
        if negb (comma_space_ahead r) then EmptyString :: re_split r
        else push c (re_split r)
      else if Ascii.eqb c pipe then EmptyString :: re_split r
      else push c (re_split r)
  end.

(** A token free of the three separator characters. *)
Definition plain (t : string) : bool :=
  negb (Text.has_char comma t) && negb (Text.has_char space t)
  && negb (Text.has_char pipe t).

(** The four ways of writing a separator. *)
Definition separators : list string := [","; ", "; "|"; " "].

(** Lines 32-33 and 35-36: split, then lowercase each token. *)
Definition normalize (s : string) : list string :=
  map Text.lower (re_split s).

(** Line 34: the display copy of the type list. *)
Definition display (dtype : list string) : list string :=
  map Text.upper dtype.

End Split.

(** ** Regular expressions: [re.match(pattern, s, re.IGNORECASE)] *)

Module Re.

(** The syntax tree of a compiled pattern.  [Fail] matches nothing; it is
    the residue left when a character cannot be consumed. *)
Inductive regex : Type :=
| Fail : regex
| Eps : regex
| Chr : ascii -> regex
| Dot : regex
| Cls : bool -> list (ascii * ascii) -> regex
| Cat : regex -> regex -> regex
| Alt : regex -> regex -> regex
| Star : regex -> regex
| Bol : regex
| Eol : regex.

(** A literal: under [re.IGNORECASE] two letters agree when their
    lowercase forms do. *)
Definition chr_ic (a c : ascii) : bool :=
  Ascii.eqb (Text.lower_char a) (Text.lower_char c).

Definition in_range (rg : ascii * ascii) (c : ascii) : bool :=
  (nat_of_ascii (fst rg) <=? nat_of_ascii c)%nat
  && (nat_of_ascii c <=? nat_of_ascii (snd rg))%nat.

(** A character set [[...]] or [[^...]] under [re.IGNORECASE]. *)
Definition cls_ic (neg : bool) (rgs : list (ascii * ascii)) (c : ascii) : bool :=
  xorb neg
    (existsb (fun rg => in_range rg (Text.lower_char c)
                        || in_range rg (Text.upper_char c)) rgs).

(** [.] matches any character but a line break. *)
Definition dot (c : ascii) : bool := negb (Ascii.eqb c Split.newline).

(** [$] holds at the end of the text and just before a final line break. *)
Definition at_end (s : string) : bool :=
  match s with
  | EmptyString => true
  | String c EmptyString => Ascii.eqb c Split.newline
  | _ => false
  end.

(** Does [r] match the empty word, at a place where [^] holds iff [bol]
    and [$] holds iff [eol]? *)
Fixpoint nullable (bol eol : bool) (r : regex) : bool :=
  match r with
  | Fail => false
  | Eps => true
  | Chr _ => false
  | Dot => false
  | Cls _ _ => false
  | Cat r1 r2 => nullable bol eol r1 && nullable bol eol r2
  | Alt r1 r2 => nullable bol eol r1 || nullable bol eol r2
  | Star _ => true
  | Bol => bol
  | Eol => eol
  end.

(** What is left of [r] once it has consumed [c]. *)
Fixpoint deriv (bol eol : bool) (c : ascii) (r : regex) : regex :=
  match r with
  | Fail => Fail
  | Eps => Fail
  | Chr a => if chr_ic a c then Eps else Fail
  | Dot => if dot c then Eps else Fail
  | Cls neg rgs => if cls_ic neg rgs c then Eps else Fail
  | Cat r1 r2 =>
      Alt (Cat (deriv bol eol c r1) r2)
          (if nullable bol eol r1 then deriv bol eol c r2 else Fail)
  | Alt r1 r2 => Alt (deriv bol eol c r1) (deriv bol eol c r2)
  | Star r1 => Cat (deriv bol eol c r1) (Star r1)
  | Bol => Fail
  | Eol => Fail
  end.

(** Some prefix of [s] matches [r]; [bol] tells whether [s] starts the
    text. *)
Fixpoint run (bol : bool) (r : regex) (s : string) : bool :=
  nullable bol (at_end s) r
  || match s with
     | EmptyString => false
     | String c rest => run false (deriv bol (at_end s) c r) rest
     end.

(** [re.match(r, s, re.IGNORECASE) is not None]: the match starts at the
    first character of [s] and may stop anywhere. *)
Definition re_match (r : regex) (s : string) : bool := run true r s.

(** [^] still holds after the word [w] iff it held before and [w] is
    empty. *)
Definition after (bol : bool) (w : string) : bool :=
  match w with
  | EmptyString => bol
  | String _ _ => false
  end.

(** The meaning of a pattern: [matches bol r w post] says that [r]
    matches the word [w] when [w] is followed by [post] and starts the
    text iff [bol]. *)
Inductive matches : bool -> regex -> string -> string -> Prop :=
| MEps : forall b post, matches b Eps "" post
| MChr : forall b a c post,
    chr_ic a c = true -> matches b (Chr a) (String c "") post
| MDot : forall b c post,
    dot c = true -> matches b Dot (String c "") post
| MCls : forall b neg rgs c post,
    cls_ic neg rgs c = true -> matches b (Cls neg rgs) (String c "") post
| MCat : forall b r1 r2 w1 w2 post,
    matches b r1 w1 (w2 ++ post) ->
    matches (after b w1) r2 w2 post ->
    matches b (Cat r1 r2) (w1 ++ w2) post
| MAltL : forall b r1 r2 w post,
    matches b r1 w post -> matches b (Alt r1 r2) w post
| MAltR : forall b r1 r2 w post,
    matches b r2 w post -> matches b (Alt r1 r2) w post
| MStarNil : forall b r post, matches b (Star r) "" post
| MStarCons : forall b r w1 w2 post,
    matches b r w1 (w2 ++ post) ->
    matches (after b w1) (Star r) w2 post ->
    matches b (Star r) (w1 ++ w2) post
| MBol : forall post, matches true Bol "" post
| MEol : forall b post, at_end post = true -> matches b Eol "" post.

(** The pattern that spells the text [p]. *)
Fixpoint lit (p : string) : regex :=
  match p with
  | EmptyString => Eps
  | String a p' => Cat (Chr a) (lit p')
  end.

(** The same pattern with its literals written in another case. *)
Fixpoint recase (f : ascii -> ascii) (r : regex) : regex :=
  match r with
  | Chr a => Chr (f a)
  | Cat r1 r2 => Cat (recase f r1) (recase f r2)
  | Alt r1 r2 => Alt (recase f r1) (recase f r2)
  | Star r1 => Star (recase f r1)
  | _ => r
  end.

(** A rewriting of letters that changes at most their case. *)
Definition same_letter (f : ascii -> ascii) : Prop :=
  forall c, Text.lower_char (f c) = Text.lower_char c.

End Re.

(** ** Parsed JSON *)

Module Json.

(** What [json.load] returns: [None], [bool], [int], [str], [list] and
    [dict] (keys in insertion order). *)
Inductive json : Type :=
| JNull : json
| JBool : bool -> json
| JNum : Z -> json
| JStr : string -> json
| JList : list json -> json
| JDict : list (string * json) -> json.

Definition dict := list (string * json).

(** The value stored under key [k], if any. *)
Fixpoint lookup (k : string) (d : dict) : option json :=
  match d with
  | [] => None
  | (k', v) :: d' => if String.eqb k k' then Some v else lookup k d'
  end.

Definition keys (d : dict) : list string := map fst d.
Definition values (d : dict) : list json := map snd d.

End Json.

(** ** Effects: printed lines, the status variable, exceptions *)

Module Py.
Import Json.

Inductive exn : Type :=
| AttributeError : exn
| ReError : exn.

(** One printed line.  The two message templates of lines 47-50 and
    55-58, with the values the f-strings interpolate; colouring
    ([red], [yellow]) is presentation. *)
Inductive diag : Type :=
| TypeWithoutPattern (col_name : string) (dtype_upper : list string)
    (pattern : string)
| PatternWithoutType (col_name : string) (pattern : string)
    (col_type : string) (dtype_upper : list string).

Record state : Type := mkState {
  status_code : Z;
  stdout : list diag
}.

Inductive result (A : Type) : Type :=
| Ok : A -> result A
| Raise : exn -> result A.
Arguments Ok {A} _.
Arguments Raise {A} _.

(** A computation reads and writes the state and either returns or
    raises; the state at a raise is the state reached so far. *)
Definition M (A : Type) : Type := state -> result A * state.

Definition ret {A} (a : A) : M A := fun st => (Ok a, st).

Definition raise {A} (e : exn) : M A := fun st => (Raise e, st).

Definition bind {A B} (m : M A) (k : A -> M B) : M B :=
  fun st =>
    match m st with
    | (Ok a, st') => k a st'
    | (Raise e, st') => (Raise e, st')
    end.

Definition set_status (z : Z) : M unit :=
  fun st => (Ok tt, mkState z (stdout st)).

Definition get_status : M Z :=
  fun st => (Ok (status_code st), st).

Definition print (d : diag) : M unit :=
  fun st => (Ok tt, mkState (status_code st) (stdout st ++ [d])).

(** [for x in xs: body(x)] *)
Fixpoint for_each {A} (xs : list A) (body : A -> M unit) : M unit :=
  match xs with
  | [] => ret tt
  | x :: xs' => bind (body x) (fun _ => for_each xs' body)
  end.

(** [v.get(k, default)]: only a [dict] has [get]. *)
Definition attr_get (v : json) (k : string) (default : json) : M json :=
  match v with
  | JDict d =>
      ret (match lookup k d with Some x => x | None => default end)
  | _ => raise AttributeError
  end.

(** [v.values()]: only a [dict] has [values]. *)
Definition attr_values (v : json) : M (list json) :=
  match v with
  | JDict d => ret (values d)
  | _ => raise AttributeError
  end.

(** [v.lower()]: only a [str] has [lower]. *)
Definition attr_lower (v : json) : M string :=
  match v with
  | JStr s => ret (Text.lower s)
  | _ => raise AttributeError
  end.

End Py.

Declare Scope py_scope.
Delimit Scope py_scope with py.
Notation "x <- m ;; k" := (Py.bind m (fun x => k))
  (at level 61, m at next level, right associativity) : py_scope.
Notation "m ;;; k" := (Py.bind m (fun _ => k))
  (at level 61, right associativity) : py_scope.

(** ** The helpers of [dbt_checkpoint.utils] *)

Module Utils.
Import Json.

(** Modelled from the spec: the text of a path after its last [/]
    (the file name from which [get_filenames] takes the stem). *)
Fixpoint basename (p : string) : string :=
  match p with
  | EmptyString => EmptyString
  | String _ r => if Text.has_char "/"%char p then basename r else p
  end.

(** Modelled from the spec: the stem of a file name whose extension is
    [.sql], and [None] for any other file name ("filename stem matching
    [.sql] files"). *)
Fixpoint sql_stem (name : string) : option string :=
  match name with
  | EmptyString => None
  | String c r =>
      if String.eqb r ".sql" then Some (String c EmptyString)
      else match sql_stem r with
           | Some st => Some (String c st)
           | None => None
           end
  end.

(** Modelled from the spec: [get_filenames(paths, [".sql"])], missing
    from the sources at hand: "a file-path-to-model-identifier resolver
    that, given a list of filesystem paths and an extension filter
    ([.sql]), yields the set of model identifiers to inspect".  The result
    maps each stem to its path. *)
Fixpoint get_filenames (paths : list string) : list (string * string) :=
  match paths with
  | [] => []
  | p :: ps =>
      match sql_stem (basename p) with
      | Some st => (st, p) :: get_filenames ps
      | None => get_filenames ps
      end
  end.

(** The model object handed to the hook: its identifier and its catalog
    entry. *)
Record Model : Type := mkModel {
  model_id : string;
  node : json
}.

(** Modelled from the spec: [get_models(catalog, filenames)], missing
    from the sources at hand: the catalog is "a mapping from model
    identifier (string) to a model entry", and the models considered are
    those "in the catalog" whose identifier is among the identifiers
    derived from the file paths, in catalog order. *)
Fixpoint get_models (catalog : dict) (filenames : list string) : list Model :=
  match catalog with
  | [] => []
  | (k, entry) :: rest =>
      if Text.str_in k filenames
      then mkModel k entry :: get_models rest filenames
      else get_models rest filenames
  end.

End Utils.

(** ** The hook: [check_column_name_contract] *)

Module Hook.
Import Json Py Utils.
Local Open Scope py_scope.

Section Contract.

(** Python's translation of a pattern text into a syntax tree;
    [None] when the text is not a valid expression ([re.error]). *)
Variable re_compile : string -> option Re.regex.

(** [re.match(pattern, s, re.IGNORECASE)], as the truth value of its
    result. *)
Definition py_re_match (pattern s : string) : M bool :=
  match re_compile pattern with
  | Some r => ret (Re.re_match r s)
  | None => raise ReError
  end.

(** Lines 40-58: the body of the inner loop. *)
Definition check_column (pattern : string)
    (dtype dtype_upper col_name_ignore : list string)
    (pattern_flg : bool) (col : json) : M unit :=
  name_v <- attr_get col "name" JNull ;;
  col_name <- attr_lower name_v ;;
  type_v <- attr_get col "type" JNull ;;
  col_type <- attr_lower type_v ;;
  if Text.str_in col_type dtype then
    if negb (Text.str_in col_name col_name_ignore) then
      m <- py_re_match pattern col_name ;;
      if negb m && negb pattern_flg then
        set_status 1 ;;;
        print (TypeWithoutPattern col_name dtype_upper pattern)
      else ret tt
    else ret tt
  else if negb (Text.str_in col_name col_name_ignore) then
    m <- py_re_match pattern col_name ;;
    if m then
      set_status 1 ;;;
      print (PatternWithoutType col_name pattern col_type dtype_upper)
    else ret tt
  else ret tt.

(** Lines 39-58: the body of the outer loop. *)
Definition check_model (pattern : string)
    (dtype dtype_upper col_name_ignore : list string)
    (pattern_flg : bool) (model : Model) : M unit :=
  cols_v <- attr_get (node model) "columns" (JList []) ;;
  cols <- attr_values cols_v ;;
  for_each cols
    (check_column pattern dtype dtype_upper col_name_ignore pattern_flg).

(** Lines 20-60. *)
Definition check_column_name_contract (paths : list string)
    (pattern dtype : string) (catalog : dict) (pattern_flg : bool)
    (col_name_ignore : string) : M dict :=
  set_status 0 ;;;
  let sqls := get_filenames paths in
  let filenames := map fst sqls in
  let models := get_models catalog filenames in
  let dtype := Split.normalize dtype in
  let dtype_upper := Split.display dtype in
  let col_name_ignore := Split.normalize col_name_ignore in
  for_each models
    (check_model pattern dtype dtype_upper col_name_ignore pattern_flg) ;;;
  s <- get_status ;;
  ret [("status_code", JNum s)].

(** A call from a fresh process: nothing printed yet. *)
Definition call {A} (m : M A) : result A * list diag :=
  let (r, st) := m (mkState 0 []) in (r, stdout st).

End Contract.

End Hook.

(** ** The contract in the words of the specification *)

Module Contract.
Import Json Py Utils.

(** A column as the data model has it: its name and its type, both
    already lowercased. *)
Record column : Type := mkColumn {
  col_name : string;
  col_type : string
}.

(** The rule parameters of one invocation. *)
Record params : Type := mkParams {
  pattern_text : string;
  pattern : Re.regex;
  dtype_list : list string;
  ignore_list : list string;
  pattern_flag : bool
}.

(** Forward check (type -> name): the type is allowed, the flag is off,
    the name is not ignored and does not match the pattern. *)
Definition forward_violation (p : params) (c : column) : bool :=
  Text.str_in (col_type c) (dtype_list p)
  && negb (pattern_flag p)
  && negb (Text.str_in (col_name c) (ignore_list p))
  && negb (Re.re_match (pattern p) (col_name c)).

(** Reverse check (name -> type): the name is not ignored, it matches the
    pattern and the type is not allowed. *)
Definition reverse_violation (p : params) (c : column) : bool :=
  negb (Text.str_in (col_name c) (ignore_list p))
  && Re.re_match (pattern p) (col_name c)
  && negb (Text.str_in (col_type c) (dtype_list p)).

Definition violation (p : params) (c : column) : bool :=
  forward_violation p c || reverse_violation p c.

(** The diagnostic line of a violating column. *)
Definition diagnostic (p : params) (c : column) : diag :=
  if Text.str_in (col_type c) (dtype_list p)
  then TypeWithoutPattern (col_name c) (Split.display (dtype_list p))
         (pattern_text p)
  else PatternWithoutType (col_name c) (pattern_text p) (col_type c)
         (Split.display (dtype_list p)).

(** The diagnostics of a list of columns: one line per violating column,
    in order. *)
Definition diagnostics (p : params) (cs : list column) : list diag :=
  map (diagnostic p) (filter (violation p) cs).

(** The status of a list of columns. *)
Definition status (p : params) (cs : list column) : Z :=
  if existsb (violation p) cs then 1%Z else 0%Z.

(** The state after a column has been judged: a violation sets the
    status and prints its line. *)
Definition judged (p : params) (c : column) (st : state) : state :=
  if violation p c
  then mkState 1 (stdout st ++ [diagnostic p c])
  else st.

(** The state after a run of columns has been judged. *)
Definition swept (p : params) (cs : list column) (st : state) : state :=
  mkState (if existsb (violation p) cs then 1%Z else status_code st)
          (stdout st ++ diagnostics p cs).

(** Reading a well-formed catalog: a column entry is a mapping with a
    string under ["name"] and a string under ["type"]. *)
Definition read_column (col : json) : option column :=
  match col with
  | JDict d =>
      match lookup "name" d, lookup "type" d with
      | Some (JStr n), Some (JStr t) =>
          Some (mkColumn (Text.lower n) (Text.lower t))
      | _, _ => None
      end
  | _ => None
  end.

Fixpoint read_columns (cols : list json) : option (list column) :=
  match cols with
  | [] => Some []
  | c :: cs =>
      match read_column c, read_columns cs with
      | Some x, Some xs => Some (x :: xs)
      | _, _ => None
      end
  end.

(** A model entry "carries a mapping from column name to column
    metadata". *)
Definition read_model (m : Model) : option (list column) :=
  match node m with
  | JDict d =>
      match lookup "columns" d with
      | Some (JDict cols) => read_columns (values cols)
      | _ => None
      end
  | _ => None
  end.

Fixpoint read_models (ms : list Model) : option (list column) :=
  match ms with
  | [] => Some []
  | m :: ms' =>
      match read_model m, read_models ms' with
      | Some xs, Some ys => Some (xs ++ ys)%list
      | _, _ => None
      end
  end.

(** The columns in scope: all columns of all models that are both in the
    catalog and named by a [.sql] path, when those models are well
    formed. *)
Definition columns_in_scope (paths : list string) (catalog : dict)
  : option (list column) :=
  read_models (get_models catalog (map fst (get_filenames paths))).

(** The identifiers derived from the paths. *)
Definition path_ids (paths : list string) : list string :=
  map fst (get_filenames paths).

(** The parameters a call works with: the two lists are normalized. *)
Definition params_of_call (pattern : string) (r : Re.regex)
    (dtype : string) (flg : bool) (ign : string) : params :=
  mkParams pattern r (Split.normalize dtype) (Split.normalize ign) flg.

(** The column a printed line is about. *)
Definition diag_column (d : diag) : string :=
  match d with
  | TypeWithoutPattern n _ _ => n
  | PatternWithoutType n _ _ _ => n
  end.

End Contract.

(** ** A small project to run the hook on *)

Module Demo.
Import Json Utils.

(** The tree of the pattern [^dt_]; no other pattern text is needed
    here. *)
Definition compile (p : string) : option Re.regex :=
  if String.eqb p "^dt_" then Some (Re.Cat Re.Bol (Re.lit "dt_")) else None.

Definition column (name type : string) : json :=
  JDict [("name", JStr name); ("type", JStr type)].

Definition orders : json :=
  JDict [("columns",
          JDict [("created_at", column "created_at" "DATE");
                 ("dt_flag", column "DT_Flag" "boolean");
                 ("dt_created", column "dt_created" "date")])].

Definition customers : json :=
  JDict [("columns", JDict [("signup", column "signup" "Date")])].

(** An entry without a ["columns"] key. *)
Definition bare : json := JDict [("unique_id", JStr "model.shop.bare")].

Definition catalog : dict :=
  [("orders", orders); ("bare", bare); ("customers", customers)].

Definition paths : list string :=
  ["models/orders.sql"; "README.md"; "models/staging/customers.sql"].

Definition paths_with_bare : list string :=
  ["models/orders.sql"; "models/bare.sql"].

End Demo.

(** ** The command-line entry point: [main] *)

Module Main.
Import Json Py Utils.

(** What [parse_args] hands over.  The two optional arguments are kept as
    given ([None] when absent); [is_test] is whatever [add_default_args]
    stored under that name. *)
Record args : Type := mkArgs {
  filenames : list string;
  manifest : string;
  catalog : string;
  pattern : string;
  dtype : string;
  pattern_flg : option string;
  col_name_ignore : option string;
  is_test : json
}.

(** [bool(s)] for a [str]: only the empty text is false. *)
Definition bool_of_str (s : string) : bool := negb (String.eqb s "").

(** Lines 80-86: [--pattern_flg] has [type=bool] and [default=False]: a
    given text goes through [bool], an absent argument is the default. *)
Definition pattern_flg_value (given : option string) : bool :=
  match given with
  | Some s => bool_of_str s
  | None => false
  end.

(** Lines 87-93: [--col_name_ignore] has [type=str] and [default='']. *)
Definition col_name_ignore_value (given : option string) : string :=
  match given with
  | Some s => s
  | None => ""
  end.

(** A line [main] or the hook has printed. *)
Inductive line : Type :=
| Unable_to_load_manifest (e : string)
| Unable_to_load_catalog (e : string)
| Hook_line (d : diag).

(** One call of [tracker.track_hook_event] (lines 124-134), with the
    arguments that do not depend on the clock. *)
Record event : Type := mkEvent {
  event_name : string;
  event_manifest : dict;
  hook_name : string;
  description : string;
  status : json;
  is_pytest : json
}.

(** What a run leaves behind: the printed lines and the calls made to the
    tracker, both in order. *)
Record world : Type := mkWorld {
  printed : list line;
  tracked : list event
}.

(** [d.get(k)] on a dictionary: [None] when the key is absent. *)
Definition dict_get (k : string) (d : dict) : json :=
  match lookup k d with
  | Some v => v
  | None => JNull
  end.

Section Entry.

Variable re_compile : string -> option Re.regex.

(** [get_json] of [dbt_checkpoint.utils]: the parsed file, or the message
    of the [JsonOpenError] it raises. *)
Variable get_json : string -> string + dict.

(** Lines 95-136.  An exception of the hook is not caught: it ends [main]
    after the lines printed so far. *)
Definition main (a : args) (w : world) : result json * world :=
  match get_json (manifest a) with
  | inl e =>
      (Ok (JNum 1),
       mkWorld (printed w ++ [Unable_to_load_manifest e]) (tracked w))
  | inr manifest_json =>
      match get_json (catalog a) with
      | inl e =>
          (Ok (JNum 1),
           mkWorld (printed w ++ [Unable_to_load_catalog e]) (tracked w))
      | inr catalog_json =>
          let (res, st) :=
            Hook.check_column_name_contract re_compile (filenames a)
              (pattern a) (dtype a) catalog_json
              (pattern_flg_value (pattern_flg a))
              (col_name_ignore_value (col_name_ignore a))
              (mkState 0 []) in
          let lines := (printed w ++ map Hook_line (stdout st))%list in
          match res with
          | Raise e => (Raise e, mkWorld lines (tracked w))
          | Ok hook_properties =>
              (Ok (dict_get "status_code" hook_properties),
               mkWorld lines
                 (tracked w
                  ++ [mkEvent "Hook Executed" manifest_json
                        "check_column_name_contract.py"
                        "Check column name abides to contract."
                        (dict_get "status_code" hook_properties)
                        (is_test a)]))
          end
      end
  end.

End Entry.

(** The same arguments with another text for [--pattern_flg]. *)
Definition with_pattern_flg (v : option string) (a : args) : args :=
  mkArgs (filenames a) (manifest a) (catalog a) (pattern a) (dtype a) v
    (col_name_ignore a) (is_test a).

End Main.

(** ** Further vocabulary for the properties *)

Module More.
Import Json Py Utils Contract.

(** A word of a type name: it may hold spaces, but no comma, no pipe and
    no line break. *)
Definition word (t : string) : bool :=
  negb (Text.has_char Split.comma t) && negb (Text.has_char Split.pipe t)
  && negb (Text.has_char Split.newline t).

Definition is_pattern_without_type (d : diag) : bool :=
  match d with
  | PatternWithoutType _ _ _ _ => true
  | TypeWithoutPattern _ _ _ => false
  end.

(** Is the column on the ignore list? *)
Definition ignored (ign : list string) (c : column) : bool :=
  Text.str_in (col_name c) ign.

(** The status agrees with the output: 0 and nothing printed, or 1 and
    something printed. *)
Definition consistent (st : state) : Prop :=
  (status_code st = 0%Z /\ stdout st = [])
  \/ (status_code st = 1%Z /\ stdout st <> []).

(** A column of a model that is both in the catalog and named by the stem
    of a [.sql] path. *)
Definition column_of_meet (paths : list string) (catalog : dict)
    (c : column) : Prop :=
  exists k e xs,
    In (k, e) catalog
    /\ (exists p, In p paths /\ sql_stem (basename p) = Some k)
    /\ read_model (mkModel k e) = Some xs
    /\ In c xs.

(** Text of the 128 ASCII characters, on which [Text.lower] and
    [Text.upper] are Python's [str.lower] and [str.upper]. *)
Definition ascii_char (c : ascii) : bool := (nat_of_ascii c <? 128)%nat.

Fixpoint ascii_text (s : string) : bool :=
  match s with
  | EmptyString => true
  | String c r => ascii_char c && ascii_text r
  end.

(** The list one expects from a "comma-, pipe- or space-delimited" text:
    cut at every comma, every pipe and every space. *)
Fixpoint cut_all (s : string) : list string :=
  match s with
  | EmptyString => [EmptyString]
  | String c r =>
      if Ascii.eqb c Split.comma || Ascii.eqb c Split.space
         || Ascii.eqb c Split.pipe
      then EmptyString :: cut_all r
      else Split.push c (cut_all r)
  end.

(** No comma of the text is followed by a space. *)
Fixpoint comma_space_free (s : string) : bool :=
  match s with
  | EmptyString => true
  | String c r =>
      match r with
      | String d _ =>
          negb (Ascii.eqb c Split.comma && Ascii.eqb d Split.space)
          && comma_space_free r
      | EmptyString => true
      end
  end.

(** The words [ws], each followed by a comma and a space, then [tail]. *)
Definition comma_spaced (ws : list string) (tail : string) : string :=
  fold_right (fun w acc => w ++ ", " ++ acc) tail ws.

(** A first token and then separators, each with the token after it. *)
Definition join_with (t0 : string) (rest : list (string * string)) : string :=
  t0 ++ fold_right (fun st acc => fst st ++ snd st ++ acc) "" rest.

(** The text starts with a space. *)
Definition starts_with_space (s : string) : bool :=
  match s with
  | String d _ => Ascii.eqb d Split.space
  | EmptyString => false
  end.

(** A range of a character set that runs between two letters of the same
    case, such as [A-Z] or [a-f]. *)
Definition letter_range (rg : ascii * ascii) : bool :=
  (Text.is_upper (fst rg) && Text.is_upper (snd rg))
  || (Text.is_lower (fst rg) && Text.is_lower (snd rg)).

Definition recase_range (f : ascii -> ascii) (rg : ascii * ascii)
  : ascii * ascii :=
  if letter_range rg then (f (fst rg), f (snd rg)) else rg.

(** What a set asks of a character, on one range. *)
Definition range_ic (rg : ascii * ascii) (c : ascii) : bool :=
  Re.in_range rg (Text.lower_char c) || Re.in_range rg (Text.upper_char c).

(** Rewritings of letters under which sets keep their meaning. *)
Definition keeps_sets (f : ascii -> ascii) : Prop :=
  forall rg c, range_ic (recase_range f rg) c = range_ic rg c.

(** The pattern with its letters written through [f]: the literals and
    the letter ranges of its character sets. *)
Fixpoint recase_all (f : ascii -> ascii) (r : Re.regex) : Re.regex :=
  match r with
  | Re.Chr a => Re.Chr (f a)
  | Re.Cls neg rgs => Re.Cls neg (map (recase_range f) rgs)
  | Re.Cat r1 r2 => Re.Cat (recase_all f r1) (recase_all f r2)
  | Re.Alt r1 r2 => Re.Alt (recase_all f r1) (recase_all f r2)
  | Re.Star r1 => Re.Star (recase_all f r1)
  | _ => r
  end.

(** The pattern written in lowercase, and in uppercase. *)
Definition lowered (r : Re.regex) : Re.regex := recase_all Text.lower_char r.
Definition uppered (r : Re.regex) : Re.regex := recase_all Text.upper_char r.

End More.

(** ** A small run of the entry point *)

Module DemoRun.
Import Json.

Definition manifest_json : dict := [("nodes", JDict [])].

(** The two files of the small project; any other path cannot be
    opened. *)
Definition get_json (path : string) : string + dict :=
  if String.eqb path "target/manifest.json" then inr manifest_json
  else if String.eqb path "target/catalog.json" then inr Demo.catalog
  else inl "No such file or directory".

Definition args : Main.args :=
  Main.mkArgs Demo.paths "target/manifest.json" "target/catalog.json"
    "^dt_" "date" None None JNull.

(** The same run on the one model that keeps the contract once its
    [signup] column is ignored. *)
Definition quiet_args : Main.args :=
  Main.mkArgs ["models/staging/customers.sql"] "target/manifest.json"
    "target/catalog.json" "^dt_" "date" None (Some "signup") JNull.

Definition fresh : Main.world := Main.mkWorld [] [].

End DemoRun.

(** * Properties *)

#[local] Arguments Ascii.eqb : simpl never.
#[local] Arguments String.eqb : simpl never.
#[local] Arguments Re.at_end : simpl never.

(** ** Text *)

Section TextFacts.

Lemma append_nil_r (s : string) : s ++ "" = s.
Proof. induction s as [|c s IH]; simpl; [reflexivity | now rewrite IH]. Qed.

Lemma append_assoc (a b c : string) : (a ++ b) ++ c = a ++ (b ++ c).
Proof. induction a as [|x a IH]; simpl; [reflexivity | now rewrite IH]. Qed.

Lemma lower_char_idem (c : ascii) :
  Text.lower_char (Text.lower_char c) = Text.lower_char c.
Proof. destruct c as [[] [] [] [] [] [] [] []]; reflexivity. Qed.

Lemma lower_upper_char (c : ascii) :
  Text.lower_char (Text.upper_char c) = Text.lower_char c.
Proof. destruct c as [[] [] [] [] [] [] [] []]; reflexivity. Qed.

Lemma upper_lower_char (c : ascii) :
  Text.upper_char (Text.lower_char c) = Text.upper_char c.
Proof. destruct c as [[] [] [] [] [] [] [] []]; reflexivity. Qed.

Lemma lower_char_newline (c : ascii) :
  Ascii.eqb (Text.lower_char c) Split.newline = Ascii.eqb c Split.newline.
Proof. destruct c as [[] [] [] [] [] [] [] []]; reflexivity. Qed.

Lemma lower_idem (s : string) : Text.lower (Text.lower s) = Text.lower s.
Proof.
  induction s as [|c s IH]; simpl; [reflexivity|].
  now rewrite lower_char_idem, IH.
Qed.

Lemma lower_upper (s : string) : Text.lower (Text.upper s) = Text.lower s.
Proof.
  induction s as [|c s IH]; simpl; [reflexivity|].
  now rewrite lower_upper_char, IH.
Qed.

Lemma lower_app (a b : string) :
  Text.lower (a ++ b) = Text.lower a ++ Text.lower b.
Proof. induction a as [|x a IH]; simpl; [reflexivity | now rewrite IH]. Qed.

Lemma has_char_app (c : ascii) (a b : string) :
  Text.has_char c (a ++ b) = Text.has_char c a || Text.has_char c b.
Proof.
  induction a as [|x a IH]; simpl; [reflexivity|].
  now rewrite IH, orb_assoc.
Qed.

Lemma str_in_In (x : string) (xs : list string) :
  Text.str_in x xs = true <-> In x xs.
Proof.
  unfold Text.str_in. rewrite existsb_exists. split.
  - intros [y [Hy E]]. apply String.eqb_eq in E. now subst.
  - intros H. exists x. split; [assumption | apply String.eqb_refl].
Qed.

End TextFacts.

(** ** The list splitter *)

Section SplitFacts.
Import Split.

Lemma re_split_nonempty (s : string) : re_split s <> [].
Proof.
  assert (P : forall toks c, push c toks <> []).
  { intros [|t ts] c; discriminate. }
  induction s as [|c r IH]; simpl; [discriminate|].
  destruct (Ascii.eqb c comma).
  - destruct r as [|d r']; [discriminate|].
    destruct (Ascii.eqb d space); discriminate.
  - destruct (Ascii.eqb c space).
    + destruct (negb (comma_space_ahead r)); [discriminate | apply P].
    + destruct (Ascii.eqb c pipe); [discriminate | apply P].
Qed.

Lemma plain_cons (c : ascii) (t : string) :
  plain (String c t) = true ->
  Ascii.eqb c comma = false /\ Ascii.eqb c space = false
  /\ Ascii.eqb c pipe = false /\ plain t = true.
Proof.
  unfold plain; simpl.
  rewrite (Ascii.eqb_sym c comma), (Ascii.eqb_sym c space),
    (Ascii.eqb_sym c pipe).
  destruct (Ascii.eqb comma c), (Ascii.eqb space c), (Ascii.eqb pipe c),
    (Text.has_char comma t), (Text.has_char space t),
    (Text.has_char pipe t);
    simpl; intros H; try discriminate; repeat split; reflexivity.
Qed.

(** A plain token is read whole and joined to what follows it. *)
Lemma re_split_plain_app (t rest : string) :
  plain t = true ->
  re_split (t ++ rest)
  = (t ++ hd "" (re_split rest)) :: tl (re_split rest).
Proof.
  induction t as [|c t IH]; intros Hp.
  - simpl. destruct (re_split rest) as [|h tlr] eqn:E; [|reflexivity].
    now apply re_split_nonempty in E.
  - apply plain_cons in Hp. destruct Hp as (Hc & Hs & Hb & Hp).
    specialize (IH Hp).
    change (String c t ++ rest) with (String c (t ++ rest)).
    simpl re_split. rewrite Hc, Hs, Hb, IH. reflexivity.
Qed.

Lemma comma_space_ahead_no_comma (s : string) :
  Text.has_char comma s = false -> comma_space_ahead s = false.
Proof.
  induction s as [|c r IH]; simpl; [reflexivity|].
  intros H. apply orb_false_iff in H. destruct H as [Hc Hr].
  destruct r as [|d r']; [reflexivity|].
  rewrite Ascii.eqb_sym in Hc. rewrite Hc. simpl andb. cbv iota.
  destruct (Ascii.eqb c newline); [reflexivity | now apply IH].
Qed.

Lemma plain_parts (t : string) :
  plain t = true ->
  Text.has_char comma t = false /\ Text.has_char space t = false
  /\ Text.has_char pipe t = false.
Proof.
  unfold plain.
  destruct (Text.has_char comma t), (Text.has_char space t),
    (Text.has_char pipe t); simpl; intros H; try discriminate; auto.
Qed.

Lemma concat_space_no_comma (ts : list string) :
  Forall (fun t => plain t = true) ts ->
  Text.has_char comma (String.concat " " ts) = false.
Proof.
  induction 1 as [|t ts Ht _ IH]; [reflexivity|].
  apply plain_parts in Ht. destruct Ht as (Hc & _ & _).
  destruct ts as [|u us]; [exact Hc|].
  change (String.concat " " (t :: u :: us))
    with (t ++ String space (String.concat " " (u :: us))).
  rewrite has_char_app, Hc.
  change (Text.has_char comma (String space (String.concat " " (u :: us))))
    with (Ascii.eqb comma space
          || Text.has_char comma (String.concat " " (u :: us))).
  rewrite IH. reflexivity.
Qed.

(** What follows a [","] written between plain tokens is no space. *)
Lemma concat_comma_head (ts : list string) :
  Forall (fun t => plain t = true) ts ->
  match String.concat "," ts with
  | String d _ => Ascii.eqb d space = false
  | EmptyString => True
  end.
Proof.
  intros H. destruct H as [|t ts Ht _]; [exact I|].
  simpl. destruct t as [|c t].
  - destruct ts; [exact I | reflexivity].
  - apply plain_cons in Ht. destruct Ht as (_ & Hs & _).
    destruct ts; exact Hs.
Qed.

(** After a separator the splitter starts a new token. *)
Lemma re_split_sep (sep : string) (ts : list string) :
  In sep separators ->
  Forall (fun t => plain t = true) ts ->
  re_split (sep ++ String.concat sep ts)
  = "" :: re_split (String.concat sep ts).
Proof.
  intros Hsep Hts.
  destruct Hsep as [<-|[<-|[<-|[<-|[]]]]].
  - pose proof (concat_comma_head ts Hts) as Hh.
    change ("," ++ String.concat "," ts)
      with (String comma (String.concat "," ts)).
    simpl re_split.
    destruct (String.concat "," ts) as [|d r']; [reflexivity|].
    now rewrite Hh.
  - reflexivity.
  - reflexivity.
  - change (" " ++ String.concat " " ts)
      with (String space (String.concat " " ts)).
    simpl re_split.
    now rewrite (comma_space_ahead_no_comma _ (concat_space_no_comma ts Hts)).
Qed.

(** Splitting undoes joining plain tokens with one separator. *)
Lemma re_split_concat (sep : string) (ts : list string) :
  In sep separators ->
  ts <> [] ->
  Forall (fun t => plain t = true) ts ->
  re_split (String.concat sep ts) = ts.
Proof.
  intros Hsep Hne Hts. induction Hts as [|t ts Ht Hts IH]; [congruence|].
  destruct ts as [|u us].
  - simpl. rewrite <- (append_nil_r t) at 1.
    rewrite (re_split_plain_app t "" Ht). simpl. now rewrite append_nil_r.
  - change (String.concat sep (t :: u :: us))
      with (t ++ sep ++ String.concat sep (u :: us)).
    rewrite (re_split_plain_app _ _ Ht).
    rewrite (re_split_sep sep (u :: us) Hsep Hts).
    cbn [hd tl]. rewrite append_nil_r.
    rewrite IH; [reflexivity | discriminate].
Qed.

End SplitFacts.

(** ** The matcher agrees with the meaning of patterns *)

Section ReFacts.
Import Re.

Lemma after_false (w : string) : after false w = false.
Proof. destruct w; reflexivity. Qed.

Lemma append_eq_nil (a b : string) : a ++ b = "" -> a = "" /\ b = "".
Proof. destruct a; simpl; [auto | discriminate]. Qed.

Lemma run_cons (b : bool) (r : regex) (c : ascii) (s : string) :
  run b r (String c s)
  = nullable b (at_end (String c s)) r
    || run false (deriv b (at_end (String c s)) c r) s.
Proof. reflexivity. Qed.

Ltac inv H := inversion H; subst; clear H.

Lemma nullable_spec (r : regex) :
  forall b post,
    nullable b (at_end post) r = true <-> matches b r "" post.
Proof.
  induction r as [| |a| |neg rgs|r1 IH1 r2 IH2|r1 IH1 r2 IH2|r IH| |];
    intros b post; cbn [nullable]; split; intros H;
    try discriminate; try (now inversion H); try (now constructor).
  - apply andb_true_iff in H. destruct H as [H1 H2].
    apply (MCat b r1 r2 "" "" post); [now apply IH1 | now apply IH2].
  - inv H.
    match goal with
    | E : _ ++ _ = "" |- _ =>
        apply append_eq_nil in E; destruct E as [-> ->]
    end.
    apply andb_true_iff. split; [now apply IH1 | now apply IH2].
  - apply orb_true_iff in H.
    destruct H as [H|H]; [apply MAltL, IH1 | apply MAltR, IH2]; exact H.
  - apply orb_true_iff.
    inv H; [left; now apply IH1 | right; now apply IH2].
  - subst b. constructor.
Qed.

(** If the residue matches the rest, the pattern matches the whole. *)
Lemma deriv_sound_at (r : regex) :
  forall b c w post e,
    e = at_end (String c (w ++ post)) ->
    matches false (deriv b e c r) w post ->
    matches b r (String c w) post.
Proof.
  induction r as [| |a| |neg rgs|r1 IH1 r2 IH2|r1 IH1 r2 IH2|r IH| |];
    intros b c w post e Ee H; cbn [deriv] in H; try (now inversion H).
  - destruct (chr_ic a c) eqn:E; inv H. now constructor.
  - destruct (dot c) eqn:E; inv H. now constructor.
  - destruct (cls_ic neg rgs c) eqn:E; inv H. now constructor.
  - inversion H as [| | | | |b' ra rb w' post' HL| b' ra rb w' post' HR| | | |];
      clear H; subst b' ra rb w' post'.
    + inversion HL as [| | | |b' ra rb w1 w2 post' M1 M2| | | | | |].
      subst b' ra rb post' w. rewrite append_assoc in Ee.
      apply (IH1 b c w1 (w2 ++ post) e Ee) in M1.
      rewrite after_false in M2.
      apply (MCat b r1 r2 (String c w1) w2 post M1 M2).
    + destruct (nullable b e r1) eqn:N; [|now inversion HR].
      apply (IH2 b c w post e Ee) in HR.
      rewrite Ee in N. apply nullable_spec in N.
      apply (MCat b r1 r2 "" (String c w) post N HR).
  - inversion H as [| | | | |b' ra rb w' post' HL| b' ra rb w' post' HR| | | |];
      clear H; subst b' ra rb w' post'.
    + apply MAltL. now apply (IH1 b c w post e).
    + apply MAltR. now apply (IH2 b c w post e).
  - inversion H as [| | | |b' ra rb w1 w2 post' M1 M2| | | | | |].
    subst b' ra rb post' w. rewrite append_assoc in Ee.
    apply (IH b c w1 (w2 ++ post) e Ee) in M1.
    rewrite after_false in M2.
    apply (MStarCons b r (String c w1) w2 post M1 M2).
Qed.

Lemma deriv_sound (r : regex) (b : bool) (c : ascii) (w post : string) :
  matches false (deriv b (at_end (String c (w ++ post))) c r) w post ->
  matches b r (String c w) post.
Proof. now apply deriv_sound_at. Qed.

(** If the pattern matches a word, its residue matches the word's tail. *)
Lemma deriv_complete_at (b : bool) (r : regex) (w0 post : string) :
  matches b r w0 post ->
  forall c w e, w0 = String c w ->
    e = at_end (String c (w ++ post)) ->
    matches false (deriv b e c r) w post.
Proof.
  induction 1 as [b post|b a c0 post Ha|b c0 post Hd|b neg rgs c0 post Hc
                 |b r1 r2 w1 w2 post M1 IH1 M2 IH2
                 |b r1 r2 w0 post M IH|b r1 r2 w0 post M IH
                 |b r post
                 |b r w1 w2 post M1 IH1 M2 IH2
                 |post|b post He];
    intros c w e E Ee; try discriminate; cbn [deriv].
  - injection E as -> <-. rewrite Ha. constructor.
  - injection E as -> <-. rewrite Hd. constructor.
  - injection E as -> <-. rewrite Hc. constructor.
  - destruct w1 as [|c1 w1'].
    + change ("" ++ w2) with w2 in E. subst w2. apply MAltR.
      apply nullable_spec in M1.
      change (String c w ++ post) with (String c (w ++ post)) in M1.
      rewrite <- Ee in M1. rewrite M1.
      apply (IH2 c w e eq_refl Ee).
    + change (String c1 w1' ++ w2) with (String c1 (w1' ++ w2)) in E.
      injection E as -> <-. apply MAltL.
      rewrite append_assoc in Ee.
      specialize (IH1 c w1' e eq_refl Ee).
      apply (MCat false _ r2 w1' w2 post IH1).
      rewrite after_false. exact M2.
  - apply MAltL. now apply IH.
  - apply MAltR. now apply IH.
  - destruct w1 as [|c1 w1'].
    + change ("" ++ w2) with w2 in E. subst w2.
      apply (IH2 c w e eq_refl Ee).
    + change (String c1 w1' ++ w2) with (String c1 (w1' ++ w2)) in E.
      injection E as -> <-.
      rewrite append_assoc in Ee.
      specialize (IH1 c w1' e eq_refl Ee).
      apply (MCat false _ (Star r) w1' w2 post IH1).
      rewrite after_false. exact M2.
Qed.

Lemma deriv_complete (b : bool) (r : regex) (c : ascii) (w post : string) :
  matches b r (String c w) post ->
  matches false (deriv b (at_end (String c (w ++ post))) c r) w post.
Proof. intros H. now apply (deriv_complete_at b r (String c w) post H). Qed.

Lemma run_spec (s : string) :
  forall b r,
    run b r s = true <->
    exists w post, s = w ++ post /\ matches b r w post.
Proof.
  induction s as [|c s IH]; intros b r.
  - cbn [run]. rewrite orb_false_r. split.
    + intros H. exists "", "". split; [reflexivity|].
      now apply nullable_spec.
    + intros (w & post & E & H). symmetry in E.
      apply append_eq_nil in E. destruct E as [-> ->].
      now apply nullable_spec in H.
  - rewrite run_cons, orb_true_iff. split.
    + intros [H|H].
      * exists "", (String c s). split; [reflexivity|].
        now apply nullable_spec.
      * apply IH in H. destruct H as (w & post & -> & H).
        exists (String c w), post. split; [reflexivity|].
        now apply deriv_sound.
    + intros (w & post & E & H). destruct w as [|c1 w'].
      * simpl in E. subst post. left. now apply nullable_spec.
      * simpl in E. injection E as <- ->. right. apply IH.
        exists w', post. split; [reflexivity|].
        now apply deriv_complete.
Qed.

(** [re.match] succeeds exactly when some prefix of the text matches. *)
Lemma re_match_spec (r : regex) (s : string) :
  re_match r s = true <->
  exists w post, s = w ++ post /\ matches true r w post.
Proof. apply run_spec. Qed.

End ReFacts.

(** ** Letter case does not matter to the matcher *)

Section CaseFacts.
Import Re.

Lemma chr_ic_lower (a c : ascii) : chr_ic a (Text.lower_char c) = chr_ic a c.
Proof. unfold chr_ic. now rewrite lower_char_idem. Qed.

Lemma chr_ic_eq (a c : ascii) :
  chr_ic a c = true <-> Text.lower_char a = Text.lower_char c.
Proof. unfold chr_ic. apply Ascii.eqb_eq. Qed.

Lemma chr_ic_recase (f : ascii -> ascii) (a c : ascii) :
  same_letter f -> chr_ic (f a) c = chr_ic a c.
Proof. intros Hf. unfold chr_ic. now rewrite Hf. Qed.

Lemma cls_ic_lower (neg : bool) (rgs : list (ascii * ascii)) (c : ascii) :
  cls_ic neg rgs (Text.lower_char c) = cls_ic neg rgs c.
Proof.
  unfold cls_ic. now rewrite lower_char_idem, upper_lower_char.
Qed.

Lemma dot_lower (c : ascii) : dot (Text.lower_char c) = dot c.
Proof. unfold dot. now rewrite lower_char_newline. Qed.

Lemma at_end_lower (s : string) : at_end (Text.lower s) = at_end s.
Proof.
  destruct s as [|c [|d s]]; try reflexivity.
  apply lower_char_newline.
Qed.

Lemma deriv_lower (b e : bool) (c : ascii) (r : regex) :
  deriv b e (Text.lower_char c) r = deriv b e c r.
Proof.
  induction r as [| |a| |neg rgs|r1 IH1 r2 IH2|r1 IH1 r2 IH2|r IH| |];
    cbn [deriv]; try reflexivity.
  - now rewrite chr_ic_lower.
  - now rewrite dot_lower.
  - now rewrite cls_ic_lower.
  - now rewrite IH1, IH2.
  - now rewrite IH1, IH2.
  - now rewrite IH.
Qed.

Lemma run_lower (s : string) :
  forall b r, run b r (Text.lower s) = run b r s.
Proof.
  induction s as [|c s IH]; intros b r; [reflexivity|].
  change (Text.lower (String c s))
    with (String (Text.lower_char c) (Text.lower s)).
  rewrite !run_cons.
  change (String (Text.lower_char c) (Text.lower s))
    with (Text.lower (String c s)).
  now rewrite at_end_lower, deriv_lower, IH.
Qed.

(** Two texts that differ only in letter case match alike. *)
Lemma re_match_case (r : regex) (s s' : string) :
  Text.lower s = Text.lower s' -> re_match r s = re_match r s'.
Proof.
  intros E. unfold re_match.
  now rewrite <- (run_lower s), <- (run_lower s'), E.
Qed.

Lemma nullable_recase (f : ascii -> ascii) (b e : bool) (r : regex) :
  nullable b e (recase f r) = nullable b e r.
Proof.
  induction r as [| |a| |neg rgs|r1 IH1 r2 IH2|r1 IH1 r2 IH2|r IH| |];
    cbn [recase nullable]; try reflexivity.
  - now rewrite IH1, IH2.
  - now rewrite IH1, IH2.
Qed.

Lemma deriv_recase (f : ascii -> ascii) (b e : bool) (c : ascii) (r : regex) :
  same_letter f ->
  deriv b e c (recase f r) = recase f (deriv b e c r).
Proof.
  intros Hf.
  induction r as [| |a| |neg rgs|r1 IH1 r2 IH2|r1 IH1 r2 IH2|r IH| |];
    cbn [recase deriv]; try reflexivity.
  - rewrite (chr_ic_recase f a c Hf). now destruct (chr_ic a c).
  - now destruct (dot c).
  - now destruct (cls_ic neg rgs c).
  - rewrite nullable_recase, IH1, IH2.
    now destruct (nullable b e r1).
  - now rewrite IH1, IH2.
  - now rewrite IH.
Qed.

Lemma run_recase (f : ascii -> ascii) (s : string) :
  same_letter f ->
  forall b r, run b (recase f r) s = run b r s.
Proof.
  intros Hf. induction s as [|c s IH]; intros b r.
  - cbn [run]. now rewrite nullable_recase.
  - rewrite !run_cons, nullable_recase, (deriv_recase f _ _ _ _ Hf).
    now rewrite IH.
Qed.

(** The case in which the pattern's letters are written does not
    matter. *)
Lemma re_match_recase (f : ascii -> ascii) (r : regex) (s : string) :
  same_letter f -> re_match (recase f r) s = re_match r s.
Proof. intros Hf. now apply run_recase. Qed.

Lemma same_letter_lower : same_letter Text.lower_char.
Proof. exact lower_char_idem. Qed.

Lemma same_letter_upper : same_letter Text.upper_char.
Proof. exact lower_upper_char. Qed.

Lemma lower_eq_nil (s : string) : Text.lower s = "" -> s = "".
Proof. destruct s; [reflexivity | discriminate]. Qed.

(** A literal pattern matches the words that spell it, in any case. *)
Lemma matches_lit (p : string) :
  forall b w post,
    matches b (lit p) w post <-> Text.lower w = Text.lower p.
Proof.
  induction p as [|a p IH]; intros b w post; cbn [lit]; split; intros H.
  - now inversion H.
  - apply lower_eq_nil in H. subst w. constructor.
  - inversion H as [| | | |b' ra rb w1 w2 post' M1 M2| | | | | |].
    subst b' ra rb post' w.
    inversion M1 as [|b' a' c post' Hc| | | | | | | | |].
    subst b' a' w1 post'. apply chr_ic_eq in Hc. apply IH in M2.
    simpl. now rewrite Hc, M2.
  - destruct w as [|c w]; [discriminate|].
    simpl in H. injection H as Hc Hw.
    apply (MCat b (Chr a) (lit p) (String c "") w post).
    + constructor. apply chr_ic_eq. now symmetry.
    + now apply IH.
Qed.

Lemma prefix_cons (a b : ascii) (s1 s2 : string) :
  String.prefix (String a s1) (String b s2)
  = Ascii.eqb a b && String.prefix s1 s2.
Proof.
  simpl. destruct (ascii_dec a b) as [->|N].
  - now rewrite Ascii.eqb_refl.
  - apply Ascii.eqb_neq in N. now rewrite N.
Qed.

(** For a literal pattern, [re.match] is the prefix test on the
    lowercased texts. *)
Lemma re_match_lit (p : string) :
  forall s,
    re_match (lit p) s = String.prefix (Text.lower p) (Text.lower s).
Proof.
  assert (G : forall p s b,
    (exists w post, s = w ++ post /\ matches b (lit p) w post)
    <-> String.prefix (Text.lower p) (Text.lower s) = true).
  { clear p. induction p as [|a p IH]; intros s b.
    - split; intros _.
      + now destruct (Text.lower s).
      + exists "", s. split; [reflexivity | constructor].
    - split.
      + intros (w & post & -> & H). apply matches_lit in H.
        destruct w as [|c w]; [discriminate|].
        simpl in H. injection H as Hc Hw.
        change (Text.lower (String a p))
          with (String (Text.lower_char a) (Text.lower p)).
        change (Text.lower (String c w ++ post))
          with (String (Text.lower_char c) (Text.lower (w ++ post))).
        rewrite prefix_cons, Hc, Ascii.eqb_refl. simpl andb.
        apply (IH (w ++ post) false). exists w, post.
        split; [reflexivity | now apply matches_lit].
      + intros H. destruct s as [|c s]; [discriminate|].
        change (Text.lower (String a p))
          with (String (Text.lower_char a) (Text.lower p)) in H.
        change (Text.lower (String c s))
          with (String (Text.lower_char c) (Text.lower s)) in H.
        rewrite prefix_cons in H. apply andb_true_iff in H.
        destruct H as [Hc Hp]. apply Ascii.eqb_eq in Hc.
        apply (IH s false) in Hp. destruct Hp as (w & post & -> & Hw).
        exists (String c w), post. split; [reflexivity|].
        apply matches_lit. apply matches_lit in Hw.
        simpl. now rewrite Hc, Hw. }
  intros s. apply eq_true_iff_eq.
  rewrite re_match_spec. apply G.
Qed.

End CaseFacts.


(** ** The hook on a well-formed catalog *)

Section HookFacts.
Import Json Py Utils Hook Contract.

Variable re_compile : string -> option Re.regex.

Lemma state_eta (st : state) : mkState (status_code st) (stdout st) = st.
Proof. now destruct st. Qed.

Lemma check_column_wf (pattern : string) (r : Re.regex)
    (dtype ign : list string) (flg : bool) (col : json) (c : column)
    (st : state) :
  re_compile pattern = Some r ->
  read_column col = Some c ->
  check_column re_compile pattern dtype (Split.display dtype) ign flg col st
  = (Ok tt, judged (mkParams pattern r dtype ign flg) c st).
Proof.
  intros Hr Hc. destruct col as [| | | | |d]; try discriminate.
  cbn [read_column] in Hc.
  destruct (lookup "name" d) as [[| | |n| |]|] eqn:Hn; try discriminate.
  destruct (lookup "type" d) as [[| | |t| |]|] eqn:Ht; try discriminate.
  injection Hc as <-.
  unfold check_column, bind, attr_get, attr_lower, ret, py_re_match,
    set_status, print.
  rewrite Hn, Ht, Hr.
  unfold judged, violation, forward_violation, reverse_violation,
    diagnostic.
  cbn [col_name col_type dtype_list ignore_list pattern_flag Contract.pattern
       pattern_text status_code stdout].
  destruct (Text.str_in (Text.lower t) dtype),
    (Text.str_in (Text.lower n) ign),
    (Re.re_match r (Text.lower n)), flg; reflexivity.
Qed.

Lemma swept_nil (p : params) (st : state) : swept p [] st = st.
Proof.
  unfold swept, diagnostics. cbn [existsb filter map].
  rewrite app_nil_r. apply state_eta.
Qed.

Lemma swept_cons (p : params) (c : column) (cs : list column) (st : state) :
  swept p cs (judged p c st) = swept p (c :: cs) st.
Proof.
  unfold swept, judged, diagnostics. cbn [existsb filter].
  destruct (violation p c); cbn [orb map status_code stdout].
  - rewrite <- app_assoc. cbn [app].
    now destruct (existsb (violation p) cs).
  - reflexivity.
Qed.

Lemma swept_app (p : params) (cs1 cs2 : list column) (st : state) :
  swept p cs2 (swept p cs1 st) = swept p (cs1 ++ cs2) st.
Proof.
  unfold swept, diagnostics. cbn [status_code stdout].
  rewrite existsb_app, filter_app, map_app, app_assoc.
  now destruct (existsb (violation p) cs1), (existsb (violation p) cs2).
Qed.

Lemma for_each_columns_wf (pattern : string) (r : Re.regex)
    (dtype ign : list string) (flg : bool) (cols : list json) :
  re_compile pattern = Some r ->
  forall (cs : list column) (st : state),
    read_columns cols = Some cs ->
    for_each cols
      (check_column re_compile pattern dtype (Split.display dtype) ign flg) st
    = (Ok tt, swept (mkParams pattern r dtype ign flg) cs st).
Proof.
  intros Hr. induction cols as [|col cols IH]; intros cs st Hcs.
  - injection Hcs as <-. cbn [for_each]. unfold ret. now rewrite swept_nil.
  - cbn [read_columns] in Hcs.
    destruct (read_column col) as [c|] eqn:Hc; [|discriminate].
    destruct (read_columns cols) as [cs'|] eqn:Hcs'; [|discriminate].
    injection Hcs as <-. cbn [for_each]. unfold bind.
    rewrite (check_column_wf pattern r dtype ign flg col c st Hr Hc).
    rewrite (IH cs' _ eq_refl). now rewrite swept_cons.
Qed.

Lemma check_model_wf (pattern : string) (r : Re.regex)
    (dtype ign : list string) (flg : bool) (m : Model) (cs : list column)
    (st : state) :
  re_compile pattern = Some r ->
  read_model m = Some cs ->
  check_model re_compile pattern dtype (Split.display dtype) ign flg m st
  = (Ok tt, swept (mkParams pattern r dtype ign flg) cs st).
Proof.
  intros Hr Hm. unfold read_model in Hm. unfold check_model.
  destruct (node m) as [| | | | |d]; try discriminate.
  destruct (lookup "columns" d) as [[| | | | |cols]|] eqn:Hl;
    try discriminate.
  unfold bind, attr_get, attr_values, ret. rewrite Hl.
  now apply for_each_columns_wf.
Qed.

Lemma for_each_models_wf (pattern : string) (r : Re.regex)
    (dtype ign : list string) (flg : bool) (ms : list Model) :
  re_compile pattern = Some r ->
  forall (cs : list column) (st : state),
    read_models ms = Some cs ->
    for_each ms
      (check_model re_compile pattern dtype (Split.display dtype) ign flg) st
    = (Ok tt, swept (mkParams pattern r dtype ign flg) cs st).
Proof.
  intros Hr. induction ms as [|m ms IH]; intros cs st Hcs.
  - injection Hcs as <-. cbn [for_each]. unfold ret. now rewrite swept_nil.
  - cbn [read_models] in Hcs.
    destruct (read_model m) as [xs|] eqn:Hm; [|discriminate].
    destruct (read_models ms) as [ys|] eqn:Hms; [|discriminate].
    injection Hcs as <-. cbn [for_each]. unfold bind.
    rewrite (check_model_wf pattern r dtype ign flg m xs st Hr Hm).
    rewrite (IH ys _ eq_refl). now rewrite swept_app.
Qed.

(** The whole call on a well-formed catalog: the status and the lines are
    those of the contract. *)
Lemma call_wf (paths : list string) (pattern dtype : string) (catalog : dict)
    (flg : bool) (ign : string) (r : Re.regex) (cs : list column) :
  re_compile pattern = Some r ->
  columns_in_scope paths catalog = Some cs ->
  let p := mkParams pattern r (Split.normalize dtype) (Split.normalize ign)
             flg in
  call (check_column_name_contract re_compile paths pattern dtype catalog
          flg ign)
  = (Ok [("status_code", JNum (status p cs))], diagnostics p cs).
Proof.
  intros Hr Hcs p. unfold columns_in_scope in Hcs.
  unfold call, check_column_name_contract, bind, set_status, get_status,
    ret.
  rewrite (for_each_models_wf pattern r _ _ flg _ Hr cs _ Hcs).
  reflexivity.
Qed.

End HookFacts.


(** ** Runs of the hook on the small project *)

Section Scenarios.
Import Json Py Utils Hook.

Example normalize_commas :
  Split.normalize "Date,TIMESTAMP" = ["date"; "timestamp"].
Proof. reflexivity. Qed.

Example normalize_comma_space :
  Split.normalize "date, timestamp" = ["date"; "timestamp"].
Proof. reflexivity. Qed.

Example normalize_pipe :
  Split.normalize "date|timestamp||date" = ["date"; "timestamp"; ""; "date"].
Proof. reflexivity. Qed.

Example normalize_spaces :
  Split.normalize "date timestamp" = ["date"; "timestamp"].
Proof. reflexivity. Qed.

Example normalize_space_before_comma_space :
  Split.normalize "a b, c d" = ["a b"; "c"; "d"].
Proof. reflexivity. Qed.

Example match_is_anchored :
  Re.re_match (Re.lit "dt_") "dt_created" = true
  /\ Re.re_match (Re.lit "dt_") "created_dt_" = false
  /\ Re.re_match (Re.lit "DT_") "dt_created" = true.
Proof. repeat split; reflexivity. Qed.

Example scope_of_demo :
  map model_id (get_models Demo.catalog (Contract.path_ids Demo.paths))
  = ["orders"; "customers"].
Proof. reflexivity. Qed.

Example run_demo :
  call (check_column_name_contract Demo.compile Demo.paths "^dt_" "date"
          Demo.catalog false "")
  = (Ok [("status_code", JNum 1)],
     [TypeWithoutPattern "created_at" ["DATE"] "^dt_";
      PatternWithoutType "dt_flag" "^dt_" "boolean" ["DATE"];
      TypeWithoutPattern "signup" ["DATE"] "^dt_"]).
Proof. reflexivity. Qed.

Example run_demo_ignore :
  call (check_column_name_contract Demo.compile Demo.paths "^dt_" "date"
          Demo.catalog false "created_at,dt_flag|SIGNUP")
  = (Ok [("status_code", JNum 0)], []).
Proof. reflexivity. Qed.

Example run_demo_pattern_flg :
  call (check_column_name_contract Demo.compile Demo.paths "^dt_" "date"
          Demo.catalog true "")
  = (Ok [("status_code", JNum 1)],
     [PatternWithoutType "dt_flag" "^dt_" "boolean" ["DATE"]]).
Proof. reflexivity. Qed.

Example run_demo_bare :
  call (check_column_name_contract Demo.compile Demo.paths_with_bare "^dt_"
          "date" Demo.catalog false "")
  = (Raise AttributeError,
     [TypeWithoutPattern "created_at" ["DATE"] "^dt_";
      PatternWithoutType "dt_flag" "^dt_" "boolean" ["DATE"]]).
Proof. reflexivity. Qed.

Example run_demo_bad_pattern :
  call (check_column_name_contract Demo.compile Demo.paths "dt_(" "date"
          Demo.catalog false "")
  = (Raise ReError, []).
Proof. reflexivity. Qed.

End Scenarios.


(** ** The claims about the contract check *)

(** ** Letter case in character sets *)

Section CaseMore.
Import Re.

Lemma is_upper_iff (c : ascii) :
  Text.is_upper c = true <-> (65 <= nat_of_ascii c <= 90)%nat.
Proof.
  unfold Text.is_upper. cbv zeta.
  rewrite andb_true_iff, !Nat.leb_le. tauto.
Qed.

Lemma is_lower_iff (c : ascii) :
  Text.is_lower c = true <-> (97 <= nat_of_ascii c <= 122)%nat.
Proof.
  unfold Text.is_lower. cbv zeta.
  rewrite andb_true_iff, !Nat.leb_le. tauto.
Qed.

Lemma nat_lower_char (c : ascii) :
  nat_of_ascii (Text.lower_char c)
  = if Text.is_upper c then (nat_of_ascii c + 32)%nat else nat_of_ascii c.
Proof.
  unfold Text.lower_char. destruct (Text.is_upper c) eqn:E; [|reflexivity].
  apply is_upper_iff in E. apply nat_ascii_embedding. lia.
Qed.

Lemma nat_upper_char (c : ascii) :
  nat_of_ascii (Text.upper_char c)
  = if Text.is_lower c then (nat_of_ascii c - 32)%nat else nat_of_ascii c.
Proof.
  unfold Text.upper_char. destruct (Text.is_lower c) eqn:E; [|reflexivity].
  apply is_lower_iff in E. apply nat_ascii_embedding. lia.
Qed.

(** The two forms of a character, as numbers. *)
Lemma case_forms (c : ascii) :
  let n := nat_of_ascii c in
  let l := nat_of_ascii (Text.lower_char c) in
  let u := nat_of_ascii (Text.upper_char c) in
  ((65 <= n <= 90)%nat /\ l = (n + 32)%nat /\ u = n)
  \/ ((97 <= n <= 122)%nat /\ l = n /\ u = (n - 32)%nat)
  \/ (~ (65 <= n <= 90)%nat /\ ~ (97 <= n <= 122)%nat /\ l = n /\ u = n).
Proof.
  cbv zeta. rewrite nat_lower_char, nat_upper_char.
  destruct (Text.is_upper c) eqn:U, (Text.is_lower c) eqn:L.
  - apply is_upper_iff in U. apply is_lower_iff in L. lia.
  - apply is_upper_iff in U. left. lia.
  - apply is_lower_iff in L. right. left. lia.
  - right. right.
    rewrite <- not_true_iff_false, is_upper_iff in U.
    rewrite <- not_true_iff_false, is_lower_iff in L. tauto.
Qed.

Lemma letter_range_iff (rg : ascii * ascii) :
  More.letter_range rg = true <->
  ((65 <= nat_of_ascii (fst rg) <= 90)%nat
   /\ (65 <= nat_of_ascii (snd rg) <= 90)%nat)
  \/ ((97 <= nat_of_ascii (fst rg) <= 122)%nat
      /\ (97 <= nat_of_ascii (snd rg) <= 122)%nat).
Proof.
  unfold More.letter_range.
  rewrite orb_true_iff, !andb_true_iff, !is_upper_iff, !is_lower_iff.
  tauto.
Qed.

Lemma range_ic_iff (rg : ascii * ascii) (c : ascii) :
  More.range_ic rg c = true <->
  (nat_of_ascii (fst rg) <= nat_of_ascii (Text.lower_char c)
                         <= nat_of_ascii (snd rg))%nat
  \/ (nat_of_ascii (fst rg) <= nat_of_ascii (Text.upper_char c)
                            <= nat_of_ascii (snd rg))%nat.
Proof.
  unfold More.range_ic, in_range.
  rewrite orb_true_iff, !andb_true_iff, !Nat.leb_le. tauto.
Qed.

Lemma range_ic_lower (rg : ascii * ascii) (c : ascii) :
  More.range_ic (More.recase_range Text.lower_char rg) c = More.range_ic rg c.
Proof.
  unfold More.recase_range.
  destruct (More.letter_range rg) eqn:E; [|reflexivity].
  apply letter_range_iff in E. apply eq_true_iff_eq.
  rewrite !range_ic_iff. cbn [fst snd].
  pose proof (case_forms c) as Hc. pose proof (case_forms (fst rg)) as Ha.
  pose proof (case_forms (snd rg)) as Hb. cbv zeta in Hc, Ha, Hb. lia.
Qed.

Lemma range_ic_upper (rg : ascii * ascii) (c : ascii) :
  More.range_ic (More.recase_range Text.upper_char rg) c = More.range_ic rg c.
Proof.
  unfold More.recase_range.
  destruct (More.letter_range rg) eqn:E; [|reflexivity].
  apply letter_range_iff in E. apply eq_true_iff_eq.
  rewrite !range_ic_iff. cbn [fst snd].
  pose proof (case_forms c) as Hc. pose proof (case_forms (fst rg)) as Ha.
  pose proof (case_forms (snd rg)) as Hb. cbv zeta in Hc, Ha, Hb. lia.
Qed.

Lemma cls_ic_recase (f : ascii -> ascii) (neg : bool)
    (rgs : list (ascii * ascii)) (c : ascii) :
  More.keeps_sets f ->
  cls_ic neg (map (More.recase_range f) rgs) c = cls_ic neg rgs c.
Proof.
  intros Hf. unfold cls_ic. f_equal.
  induction rgs as [|rg rgs IH]; [reflexivity|].
  cbn [map existsb]. rewrite IH. f_equal. apply Hf.
Qed.

Lemma nullable_recase_all (f : ascii -> ascii) (b e : bool) (r : regex) :
  nullable b e (More.recase_all f r) = nullable b e r.
Proof.
  induction r as [| |a| |neg rgs|r1 IH1 r2 IH2|r1 IH1 r2 IH2|r IH| |];
    cbn [More.recase_all nullable]; try reflexivity.
  - now rewrite IH1, IH2.
  - now rewrite IH1, IH2.
Qed.

Lemma deriv_recase_all (f : ascii -> ascii) (b e : bool) (c : ascii)
    (r : regex) :
  same_letter f -> More.keeps_sets f ->
  deriv b e c (More.recase_all f r) = More.recase_all f (deriv b e c r).
Proof.
  intros Hf Hs.
  induction r as [| |a| |neg rgs|r1 IH1 r2 IH2|r1 IH1 r2 IH2|r IH| |];
    cbn [More.recase_all deriv]; try reflexivity.
  - rewrite (chr_ic_recase f a c Hf). now destruct (chr_ic a c).
  - now destruct (dot c).
  - rewrite (cls_ic_recase f neg rgs c Hs). now destruct (cls_ic neg rgs c).
  - rewrite nullable_recase_all, IH1, IH2.
    now destruct (nullable b e r1).
  - now rewrite IH1, IH2.
  - now rewrite IH.
Qed.

Lemma run_recase_all (f : ascii -> ascii) (s : string) :
  same_letter f -> More.keeps_sets f ->
  forall b r, run b (More.recase_all f r) s = run b r s.
Proof.
  intros Hf Hs. induction s as [|c s IH]; intros b r.
  - cbn [run]. now rewrite nullable_recase_all.
  - rewrite !run_cons, nullable_recase_all,
      (deriv_recase_all f _ _ _ _ Hf Hs).
    now rewrite IH.
Qed.

(** A pattern written in lowercase or in uppercase, its sets included,
    matches the same texts. *)
Lemma re_match_lowered (r : regex) (s : string) :
  re_match (More.lowered r) s = re_match r s.
Proof.
  apply run_recase_all; [exact lower_char_idem | exact range_ic_lower].
Qed.

Lemma re_match_uppered (r : regex) (s : string) :
  re_match (More.uppered r) s = re_match r s.
Proof.
  apply run_recase_all; [exact lower_upper_char | exact range_ic_upper].
Qed.

End CaseMore.

Section ColumnFacts.
Import Json Py Utils Hook Contract.

Variable re_compile : string -> option Re.regex.

(** A column whose name is on the ignore list leaves the state as it
    was, whatever the other parameters. *)
Lemma check_column_ignored (pattern : string) (dtype dtype_upper ign : list string)
    (flg : bool) (col : json) (c : column) (st : state) :
  read_column col = Some c ->
  Text.str_in (col_name c) ign = true ->
  check_column re_compile pattern dtype dtype_upper ign flg col st
  = (Ok tt, st).
Proof.
  intros Hc Hi. destruct col as [| | | | |d]; try discriminate.
  cbn [read_column] in Hc.
  destruct (lookup "name" d) as [[| | |n| |]|] eqn:Hn; try discriminate.
  destruct (lookup "type" d) as [[| | |t| |]|] eqn:Ht; try discriminate.
  injection Hc as <-. cbn [col_name] in Hi.
  unfold check_column, bind, attr_get, attr_lower, ret.
  rewrite Hn, Ht, Hi. cbn [negb].
  now destruct (Text.str_in (Text.lower t) dtype).
Qed.

(** What a column can print: nothing, or the one line of the direction its
    type selects. *)
Lemma check_column_prints (pattern : string) (dtype dtype_upper ign : list string)
    (flg : bool) (col : json) (c : column) (st : state) :
  read_column col = Some c ->
  exists ds,
    stdout (snd (check_column re_compile pattern dtype dtype_upper ign flg
                   col st)) = (stdout st ++ ds)%list
    /\ (ds = []
        \/ (Text.str_in (col_type c) dtype = true
            /\ ds = [TypeWithoutPattern (col_name c) dtype_upper pattern])
        \/ (Text.str_in (col_type c) dtype = false
            /\ ds = [PatternWithoutType (col_name c) pattern (col_type c)
                       dtype_upper])).
Proof.
  intros Hc. destruct col as [| | | | |d]; try discriminate.
  cbn [read_column] in Hc.
  destruct (lookup "name" d) as [[| | |n| |]|] eqn:Hn; try discriminate.
  destruct (lookup "type" d) as [[| | |t| |]|] eqn:Ht; try discriminate.
  injection Hc as <-. cbn [col_name col_type].
  unfold check_column, bind, attr_get, attr_lower, ret, py_re_match,
    set_status, print, raise.
  rewrite Hn, Ht.
  destruct (Text.str_in (Text.lower t) dtype) eqn:Ed,
    (Text.str_in (Text.lower n) ign), (re_compile pattern) as [r|];
    cbn [negb snd stdout];
    try (exists []; split; [now rewrite app_nil_r | now left]).
  - destruct (Re.re_match r (Text.lower n)), flg; cbn [negb andb snd stdout];
      try (exists []; split; [now rewrite app_nil_r | now left]).
    eexists. split; [reflexivity|]. right. left. now split.
  - destruct (Re.re_match r (Text.lower n)); cbn [snd stdout];
      try (exists []; split; [now rewrite app_nil_r | now left]).
    eexists. split; [reflexivity|]. right. right. now split.
Qed.

End ColumnFacts.

Section ScopeFacts.
Import Json Py Utils Hook Contract.

Lemma path_ids_spec (paths : list string) (k : string) :
  In k (path_ids paths) <->
  exists p, In p paths /\ sql_stem (basename p) = Some k.
Proof.
  unfold path_ids. induction paths as [|q qs IH]; cbn [get_filenames].
  - split; [intros [] | intros (p & [] & _)].
  - destruct (sql_stem (basename q)) as [st|] eqn:E; cbn [map fst In];
      rewrite IH; split.
    + intros [<-|(p & Hp & Hk)]; [exists q | exists p]; auto.
    + intros (p & [<-|Hp] & Hk); [left; congruence | right; now exists p].
    + intros (p & Hp & Hk). exists p. auto.
    + intros (p & [<-|Hp] & Hk); [congruence | now exists p].
Qed.

Lemma get_models_spec (catalog : dict) (fs : list string) (m : Model) :
  In m (get_models catalog fs) <->
  In (model_id m, node m) catalog /\ Text.str_in (model_id m) fs = true.
Proof.
  induction catalog as [|[k e] rest IH]; cbn [get_models In].
  - tauto.
  - destruct (Text.str_in k fs) eqn:E; cbn [In]; rewrite IH;
      destruct m as [mk me]; cbn [model_id node]; split.
    + intros [H|[H1 H2]]; [injection H as <- <-|]; auto.
    + intros [[H|H] H2]; [injection H as <- <-; now left | right; auto].
    + intros [H1 H2]. auto.
    + intros [[H|H] H2]; [injection H as <- <-; congruence | auto].
Qed.

Lemma get_models_ids (catalog : dict) (fs : list string) :
  map model_id (get_models catalog fs)
  = filter (fun k => Text.str_in k fs) (keys catalog).
Proof.
  induction catalog as [|[k e] rest IH]; [reflexivity|].
  cbn [get_models keys map fst filter].
  destruct (Text.str_in k fs); cbn [map model_id]; now rewrite IH.
Qed.

Lemma get_models_skip (c1 c2 : dict) (k : string) (e : json)
    (fs : list string) :
  Text.str_in k fs = false ->
  get_models (c1 ++ (k, e) :: c2)%list fs = get_models (c1 ++ c2)%list fs.
Proof.
  intros Hk. induction c1 as [|[k1 e1] c1 IH]; cbn [app get_models].
  - now rewrite Hk.
  - now rewrite IH.
Qed.

(** A loop raises as soon as one of its elements always does. *)
Lemma for_each_raises {A : Type} (body : A -> M unit) (xs : list A) (x : A) :
  In x xs ->
  (forall st, exists e, fst (body x st) = Raise e) ->
  forall st, exists e, fst (for_each xs body st) = Raise e.
Proof.
  intros Hin Hx. induction xs as [|y ys IH]; [destruct Hin|].
  intros st. cbn [for_each]. unfold bind.
  destruct (body y st) as [[u|e] st'] eqn:E.
  - destruct Hin as [->|Hin].
    + destruct (Hx st) as (e & He). rewrite E in He. discriminate.
    + apply (IH Hin).
  - now exists e.
Qed.

Lemma read_models_spec (ms : list Model) :
  forall cs, read_models ms = Some cs ->
    forall c, In c cs <->
      exists m xs, In m ms /\ read_model m = Some xs /\ In c xs.
Proof.
  induction ms as [|m ms IH]; intros cs H c.
  - injection H as <-. split; [intros [] | intros (m & xs & [] & _)].
  - cbn [read_models] in H.
    destruct (read_model m) as [xs|] eqn:Hm; [|discriminate].
    destruct (read_models ms) as [ys|] eqn:Hms; [|discriminate].
    injection H as <-. rewrite in_app_iff, (IH ys eq_refl c). split.
    + intros [Hc|(m' & xs' & Hin & Hr & Hc)].
      * exists m, xs. cbn [In]. auto.
      * exists m', xs'. cbn [In]. auto.
    + intros (m' & xs' & [<-|Hin] & Hr & Hc).
      * left. congruence.
      * right. now exists m', xs'.
Qed.

(** The columns in scope are the columns of the models of the meet. *)
Lemma columns_in_scope_spec (paths : list string) (catalog : dict)
    (cs : list column) :
  columns_in_scope paths catalog = Some cs ->
  forall c, In c cs <-> More.column_of_meet paths catalog c.
Proof.
  intros H c. unfold columns_in_scope in H. fold (path_ids paths) in H.
  rewrite (read_models_spec _ cs H c). unfold More.column_of_meet. split.
  - intros (m & xs & Hin & Hr & Hc).
    apply get_models_spec in Hin. destruct Hin as [Hcat Hk].
    apply str_in_In, path_ids_spec in Hk. destruct m as [k e].
    now exists k, e, xs.
  - intros (k & e & xs & Hcat & Hp & Hr & Hc).
    exists (mkModel k e), xs. split; [|now split].
    apply get_models_spec. split; [exact Hcat|].
    now apply str_in_In, path_ids_spec.
Qed.

End ScopeFacts.

Section Claims.
Import Json Py Utils Hook Contract.

Variable re_compile : string -> option Re.regex.

(** C1.  On every catalog whose in-scope models are well formed (each
    carries a column mapping, and every column a string name and a string
    type) and with a pattern that compiles, [check_column_name_contract]
    returns [{"status_code": s}], where [s] is 1 if some in-scope column
    triggers a forward or a reverse violation and 0 if none does; the
    printed lines are the diagnostics of all violating columns of all
    in-scope models, one line each, in order: the sweep does not stop at
    the first violation. *)
Theorem status_and_diagnostics (paths : list string) (pattern dtype : string)
    (catalog : dict) (flg : bool) (ign : string) (r : Re.regex)
    (cs : list column) :
  re_compile pattern = Some r ->
  columns_in_scope paths catalog = Some cs ->
  call (check_column_name_contract re_compile paths pattern dtype catalog
          flg ign)
  = (Ok [("status_code", JNum (status (params_of_call pattern r dtype flg ign) cs))],
     map (diagnostic (params_of_call pattern r dtype flg ign))
       (filter (violation (params_of_call pattern r dtype flg ign)) cs))
  /\ (status (params_of_call pattern r dtype flg ign) cs = 1%Z <->
      exists c, In c cs
        /\ (forward_violation (params_of_call pattern r dtype flg ign) c = true
            \/ reverse_violation (params_of_call pattern r dtype flg ign) c
               = true))
  /\ (status (params_of_call pattern r dtype flg ign) cs = 0%Z <->
      forall c, In c cs ->
        forward_violation (params_of_call pattern r dtype flg ign) c = false
        /\ reverse_violation (params_of_call pattern r dtype flg ign) c
           = false).
Proof.
  intros Hr Hcs. set (p := params_of_call pattern r dtype flg ign).
  split; [exact (call_wf re_compile paths pattern dtype catalog flg ign r cs
                   Hr Hcs)|].
  unfold status. split.
  - destruct (existsb (violation p) cs) eqn:E; split; intros H;
      try discriminate; try reflexivity.
    + apply existsb_exists in E. destruct E as (c & Hin & Hv).
      exists c. split; [assumption|]. now apply orb_true_iff.
    + destruct H as (c & Hin & Hv).
      assert (X : existsb (violation p) cs = true).
      { apply existsb_exists. exists c. split; [assumption|].
        now apply orb_true_iff. }
      congruence.
  - destruct (existsb (violation p) cs) eqn:E; split; intros H;
      try discriminate; try reflexivity.
    + apply existsb_exists in E. destruct E as (c & Hin & Hv).
      apply orb_true_iff in Hv. destruct (H c Hin) as [F R].
      destruct Hv; congruence.
    + intros c Hin. apply orb_false_iff.
      destruct (violation p c) eqn:V; [|exact V].
      assert (X : existsb (violation p) cs = true).
      { apply existsb_exists. now exists c. }
      congruence.
Qed.

(** C2.  Each column is judged in one direction only, chosen by whether its
    lowercased type is in the type list: a column with an allowed type can
    print nothing but a [TypeWithoutPattern] line, any other column nothing
    but a [PatternWithoutType] line, and no column prints both. *)
Theorem one_direction_per_column (pattern : string)
    (dtype dtype_upper ign : list string) (flg : bool) (col : json)
    (c : column) (st : state) :
  read_column col = Some c ->
  exists ds,
    stdout (snd (check_column re_compile pattern dtype dtype_upper ign flg
                   col st)) = (stdout st ++ ds)%list
    /\ (length ds <= 1)%nat
    /\ (Text.str_in (col_type c) dtype = true ->
        forall d, In d ds ->
          d = TypeWithoutPattern (col_name c) dtype_upper pattern)
    /\ (Text.str_in (col_type c) dtype = false ->
        forall d, In d ds ->
          d = PatternWithoutType (col_name c) pattern (col_type c)
                dtype_upper)
    /\ (forall n1 u1 p1 n2 p2 t2 u2,
          ~ (In (TypeWithoutPattern n1 u1 p1) ds
             /\ In (PatternWithoutType n2 p2 t2 u2) ds)).
Proof.
  intros Hc.
  destruct (check_column_prints re_compile pattern dtype dtype_upper ign flg
              col c st Hc) as (ds & Hout & Hds).
  exists ds. split; [exact Hout|].
  destruct Hds as [->|[[Hd ->]|[Hd ->]]]; cbn [length In].
  - repeat split; try lia; try tauto.
  - repeat split; try lia.
    + intros _ d [<-|[]]. reflexivity.
    + congruence.
    + intros n1 u1 p1 n2 p2 t2 u2 [_ [H|[]]]. discriminate.
  - repeat split; try lia.
    + congruence.
    + intros _ d [<-|[]]. reflexivity.
    + intros n1 u1 p1 n2 p2 t2 u2 [[H|[]] _]. discriminate.
Qed.

(** C3.  [pattern_flg = true] switches off the forward direction only: a
    column whose lowercased type is in the type list then leaves the output
    and the status as they were, even when its name does not match; a
    column whose type is not in the list is judged exactly as with
    [pattern_flg = false]. *)
Theorem pattern_flg_waives_forward_only (pattern : string)
    (dtype dtype_upper ign : list string) (col : json) (c : column)
    (st : state) :
  read_column col = Some c ->
  (Text.str_in (col_type c) dtype = true ->
   snd (check_column re_compile pattern dtype dtype_upper ign true col st)
   = st)
  /\ (Text.str_in (col_type c) dtype = false ->
      check_column re_compile pattern dtype dtype_upper ign true col st
      = check_column re_compile pattern dtype dtype_upper ign false col st).
Proof.
  intros Hc. destruct col as [| | | | |d]; try discriminate.
  cbn [read_column] in Hc.
  destruct (lookup "name" d) as [[| | |n| |]|] eqn:Hn; try discriminate.
  destruct (lookup "type" d) as [[| | |t| |]|] eqn:Ht; try discriminate.
  injection Hc as <-. cbn [col_name col_type].
  unfold check_column, bind, attr_get, attr_lower, ret, py_re_match, raise.
  rewrite Hn, Ht. split; intros Hd; rewrite Hd; [|reflexivity].
  destruct (Text.str_in (Text.lower n) ign), (re_compile pattern) as [r|];
    cbn [negb snd]; try reflexivity.
  now destruct (Re.re_match r (Text.lower n)).
Qed.

(** C4, as amended.  The ignore list exempts a column from the reverse
    check as well: a column whose lowercased name is on the list, whose
    type is not in the type list and whose name matches the pattern prints
    no [PatternWithoutType] line and leaves the status as it was. *)
Theorem ignored_name_skips_reverse_check (pattern : string) (r : Re.regex)
    (dtype dtype_upper ign : list string) (flg : bool) (col : json)
    (c : column) (st : state) :
  read_column col = Some c ->
  Text.str_in (col_name c) ign = true ->
  Text.str_in (col_type c) dtype = false ->
  re_compile pattern = Some r ->
  Re.re_match r (col_name c) = true ->
  check_column re_compile pattern dtype dtype_upper ign flg col st
  = (Ok tt, st)
  /\ reverse_violation (mkParams pattern r dtype ign flg) c = false.
Proof.
  intros Hc Hi Hd Hr Hm. split.
  - now apply check_column_ignored with (c := c).
  - unfold reverse_violation. cbn [ignore_list]. now rewrite Hi.
Qed.

(** C5.  A column whose lowercased name is on the ignore list records no
    violation in either direction, for every pattern, type list and flag:
    judging it changes neither the output nor the status, and no line a
    call prints is about an ignored column. *)
Theorem ignored_name_never_violates (pattern : string)
    (dtype dtype_upper ign : list string) (flg : bool) (col : json)
    (c : column) (st : state) :
  read_column col = Some c ->
  Text.str_in (col_name c) ign = true ->
  check_column re_compile pattern dtype dtype_upper ign flg col st
  = (Ok tt, st)
  /\ (forall r, violation (mkParams pattern r dtype ign flg) c = false)
  /\ (forall r cs d,
        In d (diagnostics (mkParams pattern r dtype ign flg) cs) ->
        diag_column d <> col_name c).
Proof.
  intros Hc Hi. split; [now apply check_column_ignored with (c := c)|].
  assert (V : forall r x, Text.str_in (col_name x) ign = true ->
                violation (mkParams pattern r dtype ign flg) x = false).
  { intros r x Hx. unfold violation, forward_violation, reverse_violation.
    cbn [ignore_list]. rewrite Hx. cbn [negb andb].
    rewrite andb_false_r. reflexivity. }
  split; [intros r; now apply V|].
  intros r cs d Hd E. unfold diagnostics in Hd.
  apply in_map_iff in Hd. destruct Hd as (x & <- & Hx).
  apply filter_In in Hx. destruct Hx as [_ Hv].
  assert (N : diag_column (diagnostic (mkParams pattern r dtype ign flg) x)
              = col_name x).
  { unfold diagnostic. now destruct (Text.str_in (col_type x) _). }
  rewrite N in E. rewrite (V r x) in Hv; [discriminate|]. now rewrite E.
Qed.

(** C7.  In both checks the name test is [re.match] on the lowercased
    name: it succeeds when some prefix of the name matches the pattern (the
    match starts at the first character and need not reach the end).  The
    test is blind to letter case, on ASCII text: the pattern matches the
    name as the catalog writes it exactly when it matches the lowercased
    name, names that differ in case only are judged alike, and a pattern
    whose literals and letter ranges are written in the other case gives
    the same verdicts. *)
Theorem name_test_anchored_caseless (pattern : string) (r : Re.regex)
    (dtype ign : list string) (flg : bool) (col : json) (c : column)
    (st : state) :
  re_compile pattern = Some r ->
  read_column col = Some c ->
  check_column re_compile pattern dtype (Split.display dtype) ign flg col st
  = (Ok tt, judged (mkParams pattern r dtype ign flg) c st)
  /\ (forward_violation (mkParams pattern r dtype ign flg) c = true <->
      Text.str_in (col_type c) dtype = true /\ flg = false
      /\ Text.str_in (col_name c) ign = false
      /\ ~ (exists w post,
              col_name c = w ++ post /\ Re.matches true r w post))
  /\ (reverse_violation (mkParams pattern r dtype ign flg) c = true <->
      Text.str_in (col_name c) ign = false
      /\ (exists w post,
            col_name c = w ++ post /\ Re.matches true r w post)
      /\ Text.str_in (col_type c) dtype = false)
  /\ (forall p0, r = Re.lit p0 ->
        More.ascii_text p0 = true ->
        More.ascii_text (col_name c) = true ->
        Re.re_match r (col_name c)
        = String.prefix (Text.lower p0) (Text.lower (col_name c)))
  /\ (forall n n' t,
        More.ascii_text n = true -> More.ascii_text n' = true ->
        Text.lower n = Text.lower n' ->
        check_column re_compile pattern dtype (Split.display dtype) ign flg
          (JDict [("name", JStr n); ("type", JStr t)]) st
        = check_column re_compile pattern dtype (Split.display dtype) ign flg
            (JDict [("name", JStr n'); ("type", JStr t)]) st)
  /\ (forall f, Re.same_letter f ->
        check_column (fun q => option_map (Re.recase f) (re_compile q))
          pattern dtype (Split.display dtype) ign flg col st
        = check_column re_compile pattern dtype (Split.display dtype) ign flg
            col st)
  /\ (forall s,
        More.ascii_text s = true ->
        Text.lower s = col_name c ->
        Re.re_match r s = Re.re_match r (col_name c))
  /\ check_column (fun q => option_map More.lowered (re_compile q))
       pattern dtype (Split.display dtype) ign flg col st
     = check_column re_compile pattern dtype (Split.display dtype) ign flg
         col st
  /\ check_column (fun q => option_map More.uppered (re_compile q))
       pattern dtype (Split.display dtype) ign flg col st
     = check_column re_compile pattern dtype (Split.display dtype) ign flg
         col st.
Proof.
  intros Hr Hc.
  assert (Hm : forall b : bool,
    Re.re_match r (col_name c) = b ->
    (b = true <-> exists w post,
                    col_name c = w ++ post /\ Re.matches true r w post)).
  { intros b <-. apply re_match_spec. }
  assert (Same : forall (g : Re.regex -> Re.regex),
    (forall s, Re.re_match (g r) s = Re.re_match r s) ->
    check_column (fun q => option_map g (re_compile q))
      pattern dtype (Split.display dtype) ign flg col st
    = check_column re_compile pattern dtype (Split.display dtype) ign flg
        col st).
  { intros g Hg.
    rewrite (check_column_wf re_compile pattern r dtype ign flg col c st
               Hr Hc).
    rewrite (check_column_wf (fun q => option_map g (re_compile q))
               pattern (g r) dtype ign flg col c st);
      [|now rewrite Hr|exact Hc].
    unfold judged, violation, forward_violation, reverse_violation,
      diagnostic.
    cbn [dtype_list ignore_list pattern_flag Contract.pattern pattern_text].
    now rewrite (Hg (col_name c)). }
  split; [now apply check_column_wf|].
  split; [|split; [|split; [|split; [|split; [|split; [|split]]]]]].
  - unfold forward_violation.
    cbn [dtype_list ignore_list pattern_flag Contract.pattern].
    specialize (Hm _ eq_refl).
    rewrite !andb_true_iff, !negb_true_iff.
    assert (N : Re.re_match r (col_name c) = false <->
                ~ (exists w post,
                     col_name c = w ++ post /\ Re.matches true r w post)).
    { rewrite <- Hm. destruct (Re.re_match r (col_name c)); split; congruence. }
    rewrite N. tauto.
  - unfold reverse_violation.
    cbn [dtype_list ignore_list pattern_flag Contract.pattern].
    specialize (Hm _ eq_refl).
    rewrite !andb_true_iff, !negb_true_iff, Hm. tauto.
  - intros p0 -> _ _. apply re_match_lit.
  - intros n n' t _ _ E.
    unfold check_column, bind, attr_get, attr_lower, ret.
    cbn [lookup]. rewrite !String.eqb_refl.
    change (String.eqb "type" "name") with false. cbn iota.
    now rewrite E.
  - intros f Hf. apply Same. intros s. now apply re_match_recase.
  - intros s _ E. apply re_match_case. rewrite <- E. now rewrite lower_idem.
  - apply Same. apply re_match_lowered.
  - apply Same. apply re_match_uppered.
Qed.

(** C8.  With [pattern_flg] false and every in-scope column of an allowed
    type, the status is 1 exactly when some in-scope column has a name that
    is not on the ignore list and does not match the pattern. *)
Theorem forward_violations_decide_status (paths : list string)
    (pattern dtype : string) (catalog : dict) (ign : string) (r : Re.regex)
    (cs : list column) :
  re_compile pattern = Some r ->
  columns_in_scope paths catalog = Some cs ->
  (forall c, In c cs ->
     Text.str_in (col_type c) (Split.normalize dtype) = true) ->
  exists s out,
    call (check_column_name_contract re_compile paths pattern dtype catalog
            false ign)
    = (Ok [("status_code", JNum s)], out)
    /\ (s = 1%Z <->
        exists c, In c cs
          /\ Text.str_in (col_type c) (Split.normalize dtype) = true
          /\ Text.str_in (col_name c) (Split.normalize ign) = false
          /\ Re.re_match r (col_name c) = false).
Proof.
  intros Hr Hcs Hall.
  set (p := params_of_call pattern r dtype false ign).
  exists (status p cs), (diagnostics p cs).
  split; [exact (call_wf re_compile paths pattern dtype catalog false ign r
                   cs Hr Hcs)|].
  assert (V : forall c, In c cs ->
    violation p c
    = negb (Text.str_in (col_name c) (Split.normalize ign))
      && negb (Re.re_match r (col_name c))).
  { intros c Hin. unfold violation, forward_violation, reverse_violation, p.
    cbn [params_of_call dtype_list ignore_list pattern_flag Contract.pattern].
    rewrite (Hall c Hin).
    destruct (Text.str_in (col_name c) (Split.normalize ign)),
      (Re.re_match r (col_name c)); reflexivity. }
  unfold status.
  destruct (existsb (violation p) cs) eqn:E; split; intros H;
    try discriminate; try reflexivity.
  - apply existsb_exists in E. destruct E as (c & Hin & Hv).
    rewrite (V c Hin) in Hv. apply andb_true_iff in Hv.
    destruct Hv as [Hi Hm]. apply negb_true_iff in Hi, Hm.
    exists c. auto.
  - destruct H as (c & Hin & _ & Hi & Hm).
    assert (X : existsb (violation p) cs = true).
    { apply existsb_exists. exists c. split; [assumption|].
      rewrite (V c Hin), Hi, Hm. reflexivity. }
    congruence.
Qed.

(** C9.  The models inspected are exactly those that are both in the
    catalog and named by the stem of a given [.sql] path.  On a well-formed
    catalog a line is printed exactly for the violating columns of those
    models, and the status is 1 exactly when one of their columns
    violates; an entry outside this meet contributes nothing: the call
    behaves as if the entry were not in the catalog, whatever it holds. *)
Theorem scope_is_catalog_meet_paths (paths : list string) (catalog : dict) :
  (forall m, In m (get_models catalog (path_ids paths)) <->
     In (model_id m, node m) catalog
     /\ exists p, In p paths /\ sql_stem (basename p) = Some (model_id m))
  /\ map model_id (get_models catalog (path_ids paths))
     = filter (fun k => Text.str_in k (path_ids paths)) (keys catalog)
  /\ (forall pattern dtype flg ign c1 c2 k e,
        catalog = (c1 ++ (k, e) :: c2)%list ->
        (forall p, In p paths -> sql_stem (basename p) <> Some k) ->
        check_column_name_contract re_compile paths pattern dtype catalog
          flg ign
        = check_column_name_contract re_compile paths pattern dtype
            (c1 ++ c2)%list flg ign)
  /\ (forall pattern dtype flg ign r cs,
        re_compile pattern = Some r ->
        columns_in_scope paths catalog = Some cs ->
        exists s out,
          call (check_column_name_contract re_compile paths pattern dtype
                  catalog flg ign)
          = (Ok [("status_code", JNum s)], out)
          /\ (forall d, In d out <->
                exists c,
                  More.column_of_meet paths catalog c
                  /\ violation (params_of_call pattern r dtype flg ign) c
                     = true
                  /\ d = diagnostic (params_of_call pattern r dtype flg ign)
                           c)
          /\ (s = 1%Z <->
              exists c,
                More.column_of_meet paths catalog c
                /\ violation (params_of_call pattern r dtype flg ign) c
                   = true)).
Proof.
  split; [|split; [|split]].
  - intros m. rewrite get_models_spec, str_in_In, path_ids_spec. tauto.
  - apply get_models_ids.
  - intros pattern dtype flg ign c1 c2 k e -> Hk.
    assert (N : Text.str_in k (path_ids paths) = false).
    { destruct (Text.str_in k (path_ids paths)) eqn:E; [|reflexivity].
      apply str_in_In, path_ids_spec in E. destruct E as (p & Hp & Hs).
      now destruct (Hk p Hp). }
    unfold check_column_name_contract. fold (path_ids paths).
    now rewrite (get_models_skip c1 c2 k e _ N).
  - intros pattern dtype flg ign r cs Hr Hcs.
    set (P := params_of_call pattern r dtype flg ign).
    exists (status P cs), (diagnostics P cs).
    split; [exact (call_wf re_compile paths pattern dtype catalog flg ign r
                     cs Hr Hcs)|].
    pose proof (columns_in_scope_spec paths catalog cs Hcs) as S.
    split.
    + intros d. unfold diagnostics. rewrite in_map_iff. split.
      * intros (c & <- & Hc). apply filter_In in Hc.
        destruct Hc as [Hin Hv]. exists c. split; [now apply S | now split].
      * intros (c & Hm & Hv & ->). exists c. split; [reflexivity|].
        apply filter_In. split; [now apply S | exact Hv].
    + unfold status.
      destruct (existsb (violation P) cs) eqn:E; split; intros H;
        try discriminate; try reflexivity.
      * apply existsb_exists in E. destruct E as (c & Hin & Hv).
        exists c. split; [now apply S | exact Hv].
      * destruct H as (c & Hm & Hv).
        assert (X : existsb (violation P) cs = true).
        { apply existsb_exists. exists c. split; [now apply S | exact Hv]. }
        congruence.
Qed.

(** C10.  An in-scope model entry without a ["columns"] key makes the
    call raise: the fallback of [get] is a list, which has no [values], so
    the entry is not treated as a model without columns. *)
Theorem missing_columns_raises (paths : list string) (pattern dtype : string)
    (catalog : dict) (flg : bool) (ign : string) (m : Model) (d : dict) :
  In m (get_models catalog (path_ids paths)) ->
  node m = JDict d ->
  lookup "columns" d = None ->
  (forall dl du il st,
     check_model re_compile pattern dl du il flg m st
     = (Raise AttributeError, st))
  /\ exists e out,
       call (check_column_name_contract re_compile paths pattern dtype
               catalog flg ign)
       = (Raise e, out).
Proof.
  intros Hin Hn Hl.
  assert (R : forall dl du il st,
    check_model re_compile pattern dl du il flg m st
    = (Raise AttributeError, st)).
  { intros dl du il st. unfold check_model, bind, attr_get, ret.
    rewrite Hn, Hl. reflexivity. }
  split; [exact R|].
  unfold call, check_column_name_contract, bind, set_status.
  fold (path_ids paths).
  match goal with
  | |- context [for_each ?ms ?body ?st] =>
      destruct (for_each_raises body ms m Hin
                  (fun st' => ex_intro _ AttributeError
                                (f_equal fst (R _ _ _ st'))) st)
        as (e & He);
      destruct (for_each ms body st) as [[u|e'] st'] eqn:E
  end.
  - discriminate.
  - now exists e', (stdout st').
Qed.

End Claims.

(** C4, as the claim states it, fails: there is no column on the ignore
    list, with a type outside the type list and a name matching the
    pattern, for which a [PatternWithoutType] line is printed and the
    status set to 1. *)
Lemma ignored_name_reverse_violation_never_recorded :
  ~ (exists (re_compile : string -> option Re.regex) (pattern : string)
       (r : Re.regex) (dtype dtype_upper ign : list string) (flg : bool)
       (col : Json.json) (c : Contract.column) (st : Py.state),
       Contract.read_column col = Some c
       /\ Text.str_in (Contract.col_name c) ign = true
       /\ Text.str_in (Contract.col_type c) dtype = false
       /\ re_compile pattern = Some r
       /\ Re.re_match r (Contract.col_name c) = true
       /\ snd (Hook.check_column re_compile pattern dtype dtype_upper ign
                 flg col st)
          = Py.mkState 1
              (Py.stdout st
               ++ [Py.PatternWithoutType (Contract.col_name c) pattern
                     (Contract.col_type c) dtype_upper])).
Proof.
  intros (re_compile & pattern & r & dtype & dtype_upper & ign & flg & col
          & c & st & Hc & Hi & _ & _ & _ & H).
  rewrite (check_column_ignored re_compile pattern dtype dtype_upper ign flg
             col c st Hc Hi) in H.
  cbn [snd] in H. apply (f_equal Py.stdout) in H. cbn [Py.stdout] in H.
  apply (f_equal (@length Py.diag)) in H. rewrite length_app in H.
  cbn [length] in H. lia.
Qed.

(** ** The theorems at work on the small project *)

Section Witnesses.
Import Json Py Utils Hook Contract.

Lemma status_and_diagnostics_witness :
  Demo.compile "^dt_" = Some (Re.Cat Re.Bol (Re.lit "dt_"))
  /\ columns_in_scope Demo.paths Demo.catalog
     = Some [mkColumn "created_at" "date"; mkColumn "dt_flag" "boolean";
             mkColumn "dt_created" "date"; mkColumn "signup" "date"]
  /\ call (check_column_name_contract Demo.compile Demo.paths "^dt_" "date"
             Demo.catalog false "")
     = (Ok [("status_code", JNum 1)],
        [TypeWithoutPattern "created_at" ["DATE"] "^dt_";
         PatternWithoutType "dt_flag" "^dt_" "boolean" ["DATE"];
         TypeWithoutPattern "signup" ["DATE"] "^dt_"]).
Proof.
  split; [reflexivity|]. split; [reflexivity|].
  exact (proj1 (status_and_diagnostics Demo.compile Demo.paths "^dt_" "date"
                  Demo.catalog false "" _ _ eq_refl eq_refl)).
Defined.

Lemma one_direction_per_column_witness :
  read_column (Demo.column "DT_Flag" "boolean")
  = Some (mkColumn "dt_flag" "boolean")
  /\ exists ds,
       stdout (snd (check_column Demo.compile "^dt_" ["date"] ["DATE"] [""]
                      false (Demo.column "DT_Flag" "boolean")
                      (mkState 0 [])))
       = ([] ++ ds)%list
       /\ (length ds <= 1)%nat.
Proof.
  split; [reflexivity|].
  destruct (one_direction_per_column Demo.compile "^dt_" ["date"] ["DATE"]
              [""] false (Demo.column "DT_Flag" "boolean")
              (mkColumn "dt_flag" "boolean") (mkState 0 []) eq_refl)
    as (ds & H1 & H2 & _).
  exists ds. split; assumption.
Defined.

Lemma pattern_flg_waives_forward_only_witness :
  read_column (Demo.column "created_at" "DATE")
  = Some (mkColumn "created_at" "date")
  /\ Text.str_in "date" ["date"] = true
  /\ snd (check_column Demo.compile "^dt_" ["date"] ["DATE"] [""] true
            (Demo.column "created_at" "DATE") (mkState 0 []))
     = mkState 0 []
  /\ read_column (Demo.column "DT_Flag" "boolean")
     = Some (mkColumn "dt_flag" "boolean")
  /\ Text.str_in "boolean" ["date"] = false
  /\ check_column Demo.compile "^dt_" ["date"] ["DATE"] [""] true
       (Demo.column "DT_Flag" "boolean") (mkState 0 [])
     = check_column Demo.compile "^dt_" ["date"] ["DATE"] [""] false
         (Demo.column "DT_Flag" "boolean") (mkState 0 []).
Proof.
  split; [reflexivity|]. split; [reflexivity|]. split.
  - exact (proj1 (pattern_flg_waives_forward_only Demo.compile "^dt_"
                    ["date"] ["DATE"] [""] (Demo.column "created_at" "DATE")
                    (mkColumn "created_at" "date") (mkState 0 []) eq_refl)
             eq_refl).
  - split; [reflexivity|]. split; [reflexivity|].
    exact (proj2 (pattern_flg_waives_forward_only Demo.compile "^dt_"
                    ["date"] ["DATE"] [""] (Demo.column "DT_Flag" "boolean")
                    (mkColumn "dt_flag" "boolean") (mkState 0 []) eq_refl)
             eq_refl).
Defined.

Lemma ignored_name_skips_reverse_check_witness :
  read_column (Demo.column "DT_Flag" "boolean")
  = Some (mkColumn "dt_flag" "boolean")
  /\ Text.str_in "dt_flag" ["dt_flag"] = true
  /\ Text.str_in "boolean" ["date"] = false
  /\ Demo.compile "^dt_" = Some (Re.Cat Re.Bol (Re.lit "dt_"))
  /\ Re.re_match (Re.Cat Re.Bol (Re.lit "dt_")) "dt_flag" = true
  /\ check_column Demo.compile "^dt_" ["date"] ["DATE"] ["dt_flag"] false
       (Demo.column "DT_Flag" "boolean") (mkState 0 [])
     = (Ok tt, mkState 0 []).
Proof.
  repeat (split; [reflexivity|]).
  exact (proj1 (ignored_name_skips_reverse_check Demo.compile "^dt_"
                  (Re.Cat Re.Bol (Re.lit "dt_")) ["date"] ["DATE"]
                  ["dt_flag"] false (Demo.column "DT_Flag" "boolean")
                  (mkColumn "dt_flag" "boolean") (mkState 0 [])
                  eq_refl eq_refl eq_refl eq_refl eq_refl)).
Defined.

Lemma ignored_name_never_violates_witness :
  read_column (Demo.column "created_at" "DATE")
  = Some (mkColumn "created_at" "date")
  /\ Text.str_in "created_at" ["created_at"] = true
  /\ check_column Demo.compile "^dt_" ["date"] ["DATE"] ["created_at"] false
       (Demo.column "created_at" "DATE") (mkState 0 [])
     = (Ok tt, mkState 0 []).
Proof.
  repeat (split; [reflexivity|]).
  exact (proj1 (ignored_name_never_violates Demo.compile "^dt_" ["date"]
                  ["DATE"] ["created_at"] false
                  (Demo.column "created_at" "DATE")
                  (mkColumn "created_at" "date") (mkState 0 [])
                  eq_refl eq_refl)).
Defined.

Lemma name_test_anchored_caseless_witness :
  Demo.compile "^dt_" = Some (Re.Cat Re.Bol (Re.lit "dt_"))
  /\ read_column (Demo.column "DT_Flag" "boolean")
     = Some (mkColumn "dt_flag" "boolean")
  /\ check_column Demo.compile "^dt_" ["date"] ["DATE"] [""] false
       (Demo.column "DT_Flag" "boolean") (mkState 0 [])
     = (Ok tt,
        mkState 1 [PatternWithoutType "dt_flag" "^dt_" "boolean" ["DATE"]])
  /\ More.ascii_text "DT_Flag" = true
  /\ Text.lower "DT_Flag" = "dt_flag"
  /\ Re.re_match (Re.Cat Re.Bol (Re.lit "dt_")) "DT_Flag"
     = Re.re_match (Re.Cat Re.Bol (Re.lit "dt_")) "dt_flag"
  /\ check_column
       (fun q => option_map More.uppered (Demo.compile q)) "^dt_" ["date"]
       ["DATE"] [""] false (Demo.column "DT_Flag" "boolean") (mkState 0 [])
     = check_column Demo.compile "^dt_" ["date"] ["DATE"] [""] false
         (Demo.column "DT_Flag" "boolean") (mkState 0 []).
Proof.
  pose proof (name_test_anchored_caseless Demo.compile "^dt_"
                (Re.Cat Re.Bol (Re.lit "dt_")) ["date"] [""] false
                (Demo.column "DT_Flag" "boolean")
                (mkColumn "dt_flag" "boolean") (mkState 0 [])
                eq_refl eq_refl)
    as (H1 & _ & _ & _ & _ & _ & H7 & _ & H9).
  split; [reflexivity|]. split; [reflexivity|]. split; [exact H1|].
  split; [reflexivity|]. split; [reflexivity|].
  split; [exact (H7 "DT_Flag" eq_refl eq_refl) | exact H9].
Defined.

Lemma forward_violations_decide_status_witness :
  Demo.compile "^dt_" = Some (Re.Cat Re.Bol (Re.lit "dt_"))
  /\ columns_in_scope ["models/staging/customers.sql"] Demo.catalog
     = Some [mkColumn "signup" "date"]
  /\ (forall c, In c [mkColumn "signup" "date"] ->
        Text.str_in (col_type c) (Split.normalize "date") = true)
  /\ exists s out,
       call (check_column_name_contract Demo.compile
               ["models/staging/customers.sql"] "^dt_" "date" Demo.catalog
               false "")
       = (Ok [("status_code", JNum s)], out)
       /\ (s = 1%Z <->
           exists c, In c [mkColumn "signup" "date"]
             /\ Text.str_in (col_type c) (Split.normalize "date") = true
             /\ Text.str_in (col_name c) (Split.normalize "") = false
             /\ Re.re_match (Re.Cat Re.Bol (Re.lit "dt_")) (col_name c)
                = false).
Proof.
  assert (Ht : forall c, In c [mkColumn "signup" "date"] ->
                 Text.str_in (col_type c) (Split.normalize "date") = true).
  { intros c [<-|[]]. reflexivity. }
  split; [reflexivity|]. split; [reflexivity|]. split; [exact Ht|].
  exact (forward_violations_decide_status Demo.compile
           ["models/staging/customers.sql"] "^dt_" "date" Demo.catalog ""
           (Re.Cat Re.Bol (Re.lit "dt_")) [mkColumn "signup" "date"]
           eq_refl eq_refl Ht).
Defined.

Lemma scope_is_catalog_meet_paths_witness :
  Demo.catalog
  = ([("orders", Demo.orders)] ++ ("bare", Demo.bare)
       :: [("customers", Demo.customers)])%list
  /\ (forall p, In p Demo.paths -> sql_stem (basename p) <> Some "bare")
  /\ check_column_name_contract Demo.compile Demo.paths "^dt_" "date"
       Demo.catalog false ""
     = check_column_name_contract Demo.compile Demo.paths "^dt_" "date"
         [("orders", Demo.orders); ("customers", Demo.customers)] false ""
  /\ Demo.compile "^dt_" = Some (Re.Cat Re.Bol (Re.lit "dt_"))
  /\ columns_in_scope Demo.paths Demo.catalog
     = Some [mkColumn "created_at" "date"; mkColumn "dt_flag" "boolean";
             mkColumn "dt_created" "date"; mkColumn "signup" "date"]
  /\ exists s out,
       call (check_column_name_contract Demo.compile Demo.paths "^dt_"
               "date" Demo.catalog false "")
       = (Ok [("status_code", JNum s)], out)
       /\ (forall d, In d out <->
             exists c,
               More.column_of_meet Demo.paths Demo.catalog c
               /\ violation
                    (params_of_call "^dt_" (Re.Cat Re.Bol (Re.lit "dt_"))
                       "date" false "") c = true
               /\ d = diagnostic
                        (params_of_call "^dt_"
                           (Re.Cat Re.Bol (Re.lit "dt_")) "date" false "")
                        c)
       /\ (s = 1%Z <->
           exists c,
             More.column_of_meet Demo.paths Demo.catalog c
             /\ violation
                  (params_of_call "^dt_" (Re.Cat Re.Bol (Re.lit "dt_"))
                     "date" false "") c = true).
Proof.
  assert (Hk : forall p, In p Demo.paths ->
                 sql_stem (basename p) <> Some "bare").
  { intros p [<-|[<-|[<-|[]]]]; vm_compute; discriminate. }
  split; [reflexivity|]. split; [exact Hk|]. split.
  - exact (proj1 (proj2 (proj2 (scope_is_catalog_meet_paths Demo.compile
                                  Demo.paths Demo.catalog)))
             "^dt_" "date" false "" [("orders", Demo.orders)]
             [("customers", Demo.customers)] "bare" Demo.bare eq_refl Hk).
  - split; [reflexivity|]. split; [reflexivity|].
    exact (proj2 (proj2 (proj2 (scope_is_catalog_meet_paths Demo.compile
                                  Demo.paths Demo.catalog)))
             "^dt_" "date" false "" (Re.Cat Re.Bol (Re.lit "dt_")) _
             eq_refl eq_refl).
Defined.

Lemma missing_columns_raises_witness :
  In (mkModel "bare" Demo.bare)
    (get_models Demo.catalog (path_ids Demo.paths_with_bare))
  /\ node (mkModel "bare" Demo.bare)
     = JDict [("unique_id", JStr "model.shop.bare")]
  /\ lookup "columns" [("unique_id", JStr "model.shop.bare")] = None
  /\ exists e out,
       call (check_column_name_contract Demo.compile Demo.paths_with_bare
               "^dt_" "date" Demo.catalog false "")
       = (Raise e, out).
Proof.
  assert (Hin : In (mkModel "bare" Demo.bare)
                  (get_models Demo.catalog (path_ids Demo.paths_with_bare))).
  { right. left. reflexivity. }
  split; [exact Hin|]. split; [reflexivity|]. split; [reflexivity|].
  exact (proj2 (missing_columns_raises Demo.compile Demo.paths_with_bare
                  "^dt_" "date" Demo.catalog false ""
                  (mkModel "bare" Demo.bare)
                  [("unique_id", JStr "model.shop.bare")]
                  Hin eq_refl eq_refl)).
Defined.

End Witnesses.

(** * Further properties of the code *)

(** ** The list splitter, lines 32-36 *)

Section SplitMore.
Import Split.

(** Induction two characters at a time, as the splitter reads. *)
Lemma string_pair_ind (P : string -> Prop) :
  P "" ->
  (forall c, P (String c "")) ->
  (forall c d s, P s -> P (String d s) -> P (String c (String d s))) ->
  forall s, P s.
Proof.
  intros H0 H1 H2.
  assert (G : forall s, P s /\ forall c, P (String c s)).
  { induction s as [|d s [IHs IHc]].
    - split; [exact H0 | exact H1].
    - split; [apply IHc|]. intros c. apply H2; [exact IHs | apply IHc]. }
  intros s. apply G.
Qed.

Lemma lower_char_comma (c : ascii) :
  Ascii.eqb (Text.lower_char c) comma = Ascii.eqb c comma.
Proof. destruct c as [[] [] [] [] [] [] [] []]; reflexivity. Qed.

Lemma lower_char_space (c : ascii) :
  Ascii.eqb (Text.lower_char c) space = Ascii.eqb c space.
Proof. destruct c as [[] [] [] [] [] [] [] []]; reflexivity. Qed.

Lemma lower_char_pipe (c : ascii) :
  Ascii.eqb (Text.lower_char c) pipe = Ascii.eqb c pipe.
Proof. destruct c as [[] [] [] [] [] [] [] []]; reflexivity. Qed.

Lemma has_char_lower (d : ascii) (t : string) :
  (forall c, Ascii.eqb (Text.lower_char c) d = Ascii.eqb c d) ->
  Text.has_char d (Text.lower t) = Text.has_char d t.
Proof.
  intros Hd. induction t as [|c t IH]; [reflexivity|].
  cbn [Text.lower Text.has_char].
  now rewrite IH, (Ascii.eqb_sym d), Hd, (Ascii.eqb_sym c).
Qed.

Lemma plain_lower (t : string) : plain (Text.lower t) = plain t.
Proof.
  unfold plain.
  now rewrite (has_char_lower comma t lower_char_comma),
    (has_char_lower space t lower_char_space),
    (has_char_lower pipe t lower_char_pipe).
Qed.

(** One step of the splitter: it either closes the token and goes on
    after one or two characters, or keeps a character that is neither a
    comma nor a pipe. *)
Lemma re_split_step (c : ascii) (r : string) :
  (exists r', (r' = r \/ exists d, r = String d r')
              /\ re_split (String c r) = "" :: re_split r')
  \/ (Ascii.eqb c comma = false /\ Ascii.eqb c pipe = false
      /\ re_split (String c r) = push c (re_split r)).
Proof.
  cbn [re_split]. destruct (Ascii.eqb c comma) eqn:Ec.
  - left. destruct r as [|d r'].
    + exists "". auto.
    + destruct (Ascii.eqb d space).
      * exists r'. split; [right; now exists d | reflexivity].
      * exists (String d r'). auto.
  - destruct (Ascii.eqb c space) eqn:Es.
    + destruct (negb (comma_space_ahead r)).
      * left. exists r. auto.
      * right. repeat split.
        apply Ascii.eqb_eq in Es. now subst c.
    + destruct (Ascii.eqb c pipe) eqn:Ep.
      * left. exists r. auto.
      * right. auto.
Qed.

Lemma push_keeps (Q : string -> Prop) (c : ascii) (toks : list string) :
  (forall t, Q t -> Q (String c t)) ->
  Q "" ->
  Forall Q toks -> Forall Q (push c toks).
Proof.
  intros Hc H0 H. destruct H as [|t ts Ht Hts]; cbn [push].
  - constructor; [now apply Hc | constructor].
  - constructor; [now apply Hc | assumption].
Qed.

Lemma re_split_no_comma_no_pipe (s : string) :
  Forall (fun t => Text.has_char comma t = false
                   /\ Text.has_char pipe t = false) (re_split s).
Proof.
  induction s as [|c|c d s IH1 IH2] using string_pair_ind.
  - repeat constructor.
  - destruct (re_split_step c "") as [(r' & [->|(d & E)] & ->)
                                     |(Hc & Hp & ->)];
      try discriminate; repeat constructor.
    + cbn [Text.has_char]. now rewrite Ascii.eqb_sym, Hc.
    + cbn [Text.has_char]. now rewrite Ascii.eqb_sym, Hp.
  - destruct (re_split_step c (String d s)) as [(r' & [->|(d' & E)] & ->)
                                               |(Hc & Hp & ->)].
    + constructor; [now split | exact IH2].
    + injection E as <- <-. constructor; [now split | exact IH1].
    + apply push_keeps; [|now split|exact IH2].
      intros t [Ht1 Ht2]. cbn [Text.has_char].
      rewrite (Ascii.eqb_sym comma), (Ascii.eqb_sym pipe), Hc, Hp.
      now split.
Qed.

(** X1.  No token the normalizer returns holds a comma or a pipe: both
    characters always separate. *)
Theorem tokens_hold_no_comma_no_pipe (s t : string) :
  In t (normalize s) ->
  Text.has_char comma t = false /\ Text.has_char pipe t = false.
Proof.
  unfold normalize. intros H. apply in_map_iff in H.
  destruct H as (u & <- & Hu).
  pose proof (re_split_no_comma_no_pipe s) as F.
  rewrite Forall_forall in F. destruct (F u Hu) as [H1 H2].
  now rewrite (has_char_lower comma u lower_char_comma),
    (has_char_lower pipe u lower_char_pipe).
Qed.

Lemma plain_push (c : ascii) (t : string) :
  Ascii.eqb c comma = false -> Ascii.eqb c space = false ->
  Ascii.eqb c pipe = false -> plain t = true ->
  plain (String c t) = true.
Proof.
  unfold plain. cbn [Text.has_char]. intros Hc Hs Hp H.
  rewrite (Ascii.eqb_sym comma), (Ascii.eqb_sym space),
    (Ascii.eqb_sym pipe), Hc, Hs, Hp. exact H.
Qed.

Lemma re_split_plain_tokens (s : string) :
  Text.has_char comma s = false ->
  Forall (fun t => plain t = true) (re_split s).
Proof.
  induction s as [|c r IH]; intros Hs.
  - repeat constructor.
  - cbn [Text.has_char] in Hs. apply orb_false_iff in Hs.
    destruct Hs as [Hc Hr]. rewrite Ascii.eqb_sym in Hc.
    specialize (IH Hr). cbn [re_split]. rewrite Hc.
    rewrite (comma_space_ahead_no_comma r Hr). cbn [negb].
    destruct (Ascii.eqb c space) eqn:Es; [now constructor|].
    destruct (Ascii.eqb c pipe) eqn:Ep; [now constructor|].
    apply push_keeps; [|reflexivity|exact IH].
    intros t Ht. now apply plain_push.
Qed.

(** X2.  When the text holds no comma, every space and every pipe
    separates: no token holds a separator character. *)
Theorem no_comma_every_space_separates (s : string) :
  Text.has_char comma s = false ->
  Forall (fun t => plain t = true) (normalize s).
Proof.
  intros Hs. unfold normalize. apply Forall_map.
  eapply Forall_impl; [|exact (re_split_plain_tokens s Hs)].
  intros t Ht. cbn beta. now rewrite plain_lower.
Qed.

Lemma comma_space_ahead_word (w rest : string) :
  Text.has_char newline w = false ->
  comma_space_ahead (w ++ String comma (String space rest)) = true.
Proof.
  induction w as [|c w IH]; intros Hn.
  - cbn [append comma_space_ahead]. now rewrite !Ascii.eqb_refl.
  - cbn [Text.has_char] in Hn. apply orb_false_iff in Hn.
    destruct Hn as [Hc Hw]. rewrite Ascii.eqb_sym in Hc.
    specialize (IH Hw).
    change (String c w ++ String comma (String space rest))
      with (String c (w ++ String comma (String space rest))).
    cbn [comma_space_ahead].
    destruct (w ++ String comma (String space rest)) as [|d r] eqn:E.
    + destruct w; discriminate.
    + destruct (Ascii.eqb c comma && Ascii.eqb d space); [reflexivity|].
      now rewrite Hc.
Qed.

Lemma word_parts (c : ascii) (w : string) :
  More.word (String c w) = true ->
  Ascii.eqb c comma = false /\ Ascii.eqb c pipe = false
  /\ Text.has_char newline (String c w) = false /\ More.word w = true.
Proof.
  unfold More.word. cbn [Text.has_char].
  rewrite (Ascii.eqb_sym c comma), (Ascii.eqb_sym c pipe).
  destruct (Ascii.eqb comma c), (Ascii.eqb pipe c), (Ascii.eqb newline c),
    (Text.has_char comma w), (Text.has_char pipe w),
    (Text.has_char newline w);
    simpl; intros H; try discriminate; repeat split; reflexivity.
Qed.

Lemma re_split_words_comma_space (w rest : string) :
  More.word w = true ->
  re_split (w ++ ", " ++ rest) = w :: re_split rest.
Proof.
  change (", " ++ rest) with (String comma (String space rest)).
  induction w as [|c w IH]; intros Hw.
  - cbn [append re_split]. now rewrite !Ascii.eqb_refl.
  - apply word_parts in Hw. destruct Hw as (Hc & Hp & Hn & Hw).
    specialize (IH Hw).
    cbn [Text.has_char] in Hn. apply orb_false_iff in Hn.
    destruct Hn as [_ Hn].
    change (String c w ++ String comma (String space rest))
      with (String c (w ++ String comma (String space rest))).
    cbn [re_split]. rewrite Hc, Hp, (comma_space_ahead_word w rest Hn), IH.
    cbn [negb push]. now destruct (Ascii.eqb c space).
Qed.

(** X3.  A type name written in several words keeps its spaces when a
    comma and a space follow it: the words up to [", "] are one token. *)
Theorem words_before_comma_space_are_one_token (w rest : string) :
  More.word w = true ->
  re_split (w ++ ", " ++ rest) = w :: re_split rest.
Proof. exact (re_split_words_comma_space w rest). Qed.

Lemma comma_space_ahead_lower (s : string) :
  comma_space_ahead (Text.lower s) = comma_space_ahead s.
Proof.
  induction s as [|c r IH]; [reflexivity|].
  cbn [Text.lower comma_space_ahead].
  destruct r as [|d r']; [reflexivity|].
  cbn [Text.lower] in *.
  now rewrite lower_char_comma, lower_char_space, lower_char_newline, IH.
Qed.

Lemma push_lower (c : ascii) (toks : list string) :
  push (Text.lower_char c) (map Text.lower toks)
  = map Text.lower (push c toks).
Proof. now destruct toks. Qed.

Lemma re_split_cons (c : ascii) (r : string) :
  re_split (String c r)
  = if Ascii.eqb c comma then
      match r with
      | String d r' =>
          if Ascii.eqb d space then "" :: re_split r' else "" :: re_split r
      | EmptyString => "" :: re_split r
      end
    else if Ascii.eqb c space then
      if negb (comma_space_ahead r) then "" :: re_split r
      else push c (re_split r)
    else if Ascii.eqb c pipe then "" :: re_split r
    else push c (re_split r).
Proof. reflexivity. Qed.

Lemma re_split_lower (s : string) :
  re_split (Text.lower s) = map Text.lower (re_split s).
Proof.
  induction s as [|c|c d s IH1 IH2] using string_pair_ind.
  - reflexivity.
  - cbn [Text.lower re_split comma_space_ahead negb].
    rewrite lower_char_comma, lower_char_space, lower_char_pipe.
    now destruct (Ascii.eqb c comma), (Ascii.eqb c space),
      (Ascii.eqb c pipe).
  - rewrite (re_split_cons c (String d s)).
    change (Text.lower (String c (String d s)))
      with (String (Text.lower_char c) (Text.lower (String d s))).
    rewrite (re_split_cons (Text.lower_char c) (Text.lower (String d s))).
    rewrite lower_char_comma, lower_char_space, lower_char_pipe.
    rewrite (comma_space_ahead_lower (String d s)), IH2.
    change (Text.lower (String d s))
      with (String (Text.lower_char d) (Text.lower s)).
    cbv iota. rewrite lower_char_space, IH1, push_lower.
    destruct (Ascii.eqb c comma); [now destruct (Ascii.eqb d space)|].
    destruct (Ascii.eqb c space);
      [now destruct (negb (comma_space_ahead (String d s)))|].
    now destruct (Ascii.eqb c pipe).
Qed.

Lemma normalize_case (s s' : string) :
  Text.lower s = Text.lower s' -> normalize s = normalize s'.
Proof.
  intros E. unfold normalize.
  now rewrite <- (re_split_lower s), <- (re_split_lower s'), E.
Qed.

(** The look-ahead of the split expression finds a comma and a space
    on the rest of the line. *)
Lemma comma_space_ahead_spec (r : string) :
  comma_space_ahead r = true <->
  exists a b, r = a ++ ", " ++ b /\ Text.has_char newline a = false.
Proof.
  split.
  - induction r as [|c r IH]; [discriminate|].
    cbn [comma_space_ahead]. destruct r as [|d r']; [discriminate|].
    destruct (Ascii.eqb c comma && Ascii.eqb d space) eqn:E.
    + intros _. apply andb_true_iff in E. destruct E as [Ec Ed].
      apply Ascii.eqb_eq in Ec, Ed. subst c d. now exists "", r'.
    + destruct (Ascii.eqb c newline) eqn:En; [discriminate|].
      intros H. destruct (IH H) as (a & b & Hr & Ha).
      exists (String c a), b. split.
      * change (String c a ++ ", " ++ b) with (String c (a ++ ", " ++ b)).
        f_equal. exact Hr.
      * cbn [Text.has_char]. now rewrite Ascii.eqb_sym, En.
  - intros (a & b & -> & Ha). now apply comma_space_ahead_word.
Qed.

Lemma comma_space_free_ahead (s : string) :
  More.comma_space_free s = true -> comma_space_ahead s = false.
Proof.
  induction s as [|c r IH]; [reflexivity|].
  cbn [More.comma_space_free comma_space_ahead].
  destruct r as [|d r']; [reflexivity|].
  intros H. apply andb_true_iff in H. destruct H as [H1 H2].
  apply negb_true_iff in H1. rewrite H1.
  destruct (Ascii.eqb c newline); [reflexivity | now apply IH].
Qed.

Lemma comma_space_free_tail (c : ascii) (r : string) :
  More.comma_space_free (String c r) = true ->
  More.comma_space_free r = true.
Proof.
  cbn [More.comma_space_free]. destruct r as [|d r']; [reflexivity|].
  intros H. apply andb_true_iff in H. tauto.
Qed.

(** When no comma is followed by a space, the split cuts at every
    comma, pipe and space. *)
Lemma re_split_cut_all (s : string) :
  More.comma_space_free s = true -> re_split s = More.cut_all s.
Proof.
  induction s as [|c r IH]; intros H; [reflexivity|].
  pose proof (comma_space_free_tail c r H) as Hr. specialize (IH Hr).
  rewrite re_split_cons. cbn [More.cut_all].
  rewrite (comma_space_free_ahead r Hr), IH. cbn [negb].
  destruct (Ascii.eqb c comma) eqn:Ec; cbn [orb].
  - destruct r as [|d r']; [reflexivity|].
    cbn [More.comma_space_free] in H. rewrite Ec in H. cbn [andb] in H.
    destruct (Ascii.eqb d space); [discriminate | reflexivity].
  - now destruct (Ascii.eqb c space), (Ascii.eqb c pipe).
Qed.

Lemma cut_all_nonempty (s : string) : More.cut_all s <> [].
Proof.
  destruct s as [|c r]; cbn [More.cut_all]; [discriminate|].
  destruct (Ascii.eqb c comma || Ascii.eqb c space || Ascii.eqb c pipe);
    [discriminate|].
  destruct (More.cut_all r); discriminate.
Qed.

Lemma cut_all_plain_app (t rest : string) :
  plain t = true ->
  More.cut_all (t ++ rest)
  = (t ++ hd "" (More.cut_all rest)) :: tl (More.cut_all rest).
Proof.
  induction t as [|c t IH]; intros Hp.
  - cbn [append]. destruct (More.cut_all rest) as [|h tlr] eqn:E;
      [now apply cut_all_nonempty in E | reflexivity].
  - apply plain_cons in Hp. destruct Hp as (Hc & Hs & Hb & Hp).
    cbn [append More.cut_all]. rewrite Hc, Hs, Hb, (IH Hp). reflexivity.
Qed.

Lemma cut_all_join_with (rest : list (string * string)) :
  forall t0,
    plain t0 = true ->
    Forall (fun st => In (fst st) [","; "|"; " "] /\ plain (snd st) = true)
      rest ->
    More.cut_all (More.join_with t0 rest) = t0 :: map snd rest.
Proof.
  induction rest as [|[sep t] rest IH]; intros t0 H0 H.
  - unfold More.join_with. cbn [fold_right map].
    rewrite (cut_all_plain_app t0 "" H0). cbn [More.cut_all hd tl].
    now rewrite append_nil_r.
  - inversion H as [|x xs [Hsep Ht] Hrest]; subst. cbn [fst snd] in *.
    specialize (IH t Ht Hrest). unfold More.join_with in *.
    cbn [fold_right fst snd map].
    rewrite (cut_all_plain_app t0 _ H0).
    assert (E : More.cut_all
                  (sep ++ t ++ fold_right
                     (fun st acc => fst st ++ snd st ++ acc) "" rest)
                = "" :: t :: map snd rest).
    { destruct Hsep as [<-|[<-|[<-|[]]]]; cbn [append More.cut_all];
        rewrite IH; reflexivity. }
    rewrite E. cbn [hd tl]. now rewrite append_nil_r.
Qed.

Lemma re_split_comma_spaced (ws : list string) (tail : string) :
  Forall (fun w => More.word w = true) ws ->
  re_split (More.comma_spaced ws tail) = (ws ++ re_split tail)%list.
Proof.
  induction 1 as [|w ws Hw _ IH]; [reflexivity|].
  cbn [More.comma_spaced fold_right app].
  fold (More.comma_spaced ws tail).
  now rewrite (re_split_words_comma_space w _ Hw), IH.
Qed.

End SplitMore.

(** C6.  The normalizer gives one token for the empty text and lowercases
    every token; it filters nothing: plain tokens joined by [","], [", "],
    ["|"] or [" "] all come back, repeated and empty ones included.  It
    separates at a comma and a space taken together, at a comma, at a
    pipe, and, the legacy convention, at a space unless a comma and a
    space follow later on the line, in which case the space stays in the
    token.  So words followed by [", "] are tokens with their spaces, and
    a text in which no comma is followed by a space is cut at every comma,
    pipe and space. *)
Theorem normalize_tokens :
  Split.normalize "" = [""]
  /\ (forall s t, In t (Split.normalize s) -> Text.lower t = t)
  /\ (forall sep ts,
        In sep Split.separators ->
        ts <> [] ->
        Forall (fun t => Split.plain t = true) ts ->
        Split.normalize (String.concat sep ts) = map Text.lower ts)
  /\ (forall r,
        Split.comma_space_ahead r = true <->
        exists a b,
          r = a ++ ", " ++ b /\ Text.has_char Split.newline a = false)
  /\ (forall r,
        Split.normalize (", " ++ r) = "" :: Split.normalize r
        /\ (More.starts_with_space r = false ->
            Split.normalize ("," ++ r) = "" :: Split.normalize r)
        /\ Split.normalize ("|" ++ r) = "" :: Split.normalize r
        /\ ((exists a b,
               r = a ++ ", " ++ b /\ Text.has_char Split.newline a = false) ->
            Split.normalize (" " ++ r)
            = Split.push Split.space (Split.normalize r))
        /\ (~ (exists a b,
                 r = a ++ ", " ++ b
                 /\ Text.has_char Split.newline a = false) ->
            Split.normalize (" " ++ r) = "" :: Split.normalize r)
        /\ (forall c,
              Ascii.eqb c Split.comma = false ->
              Ascii.eqb c Split.space = false ->
              Ascii.eqb c Split.pipe = false ->
              Split.normalize (String c r)
              = Split.push (Text.lower_char c) (Split.normalize r)))
  /\ (forall ws tail,
        Forall (fun w => More.word w = true) ws ->
        Split.normalize (More.comma_spaced ws tail)
        = (map Text.lower ws ++ Split.normalize tail)%list)
  /\ (forall s,
        More.comma_space_free s = true ->
        Split.normalize s = map Text.lower (More.cut_all s))
  /\ (forall t0 rest,
        Split.plain t0 = true ->
        Forall (fun st => In (fst st) [","; "|"; " "]
                          /\ Split.plain (snd st) = true) rest ->
        More.comma_space_free (More.join_with t0 rest) = true ->
        Split.normalize (More.join_with t0 rest)
        = map Text.lower (t0 :: map snd rest)).
Proof.
  split; [reflexivity|]. split; [|split; [|split; [|split; [|split;
    [|split]]]]].
  - intros s t H. unfold Split.normalize in H. apply in_map_iff in H.
    destruct H as (u & <- & _). apply lower_idem.
  - intros sep ts Hsep Hne Hts. unfold Split.normalize.
    now rewrite re_split_concat.
  - exact comma_space_ahead_spec.
  - intros r. unfold Split.normalize.
    change (", " ++ r) with (String Split.comma (String Split.space r)).
    change ("," ++ r) with (String Split.comma r).
    change ("|" ++ r) with (String Split.pipe r).
    change (" " ++ r) with (String Split.space r).
    rewrite !re_split_cons.
    change (Ascii.eqb Split.comma Split.comma) with true.
    change (Ascii.eqb Split.space Split.space) with true.
    change (Ascii.eqb Split.pipe Split.pipe) with true.
    change (Ascii.eqb Split.pipe Split.comma) with false.
    change (Ascii.eqb Split.pipe Split.space) with false.
    change (Ascii.eqb Split.space Split.comma) with false.
    cbv iota.
    split; [reflexivity|]. split; [|split; [reflexivity|split; [|split]]].
    + destruct r as [|d r']; [reflexivity|].
      cbn [More.starts_with_space]. now intros ->.
    + intros H. apply comma_space_ahead_spec in H. rewrite H. cbn [negb].
      rewrite <- push_lower. reflexivity.
    + intros H.
      destruct (Split.comma_space_ahead r) eqn:E; [|reflexivity].
      apply comma_space_ahead_spec in E. now destruct (H E).
    + intros c Hc Hs Hp. rewrite re_split_cons, Hc, Hs, Hp.
      now rewrite <- push_lower.
  - intros ws tail H. unfold Split.normalize.
    now rewrite (re_split_comma_spaced ws tail H), map_app.
  - intros s H. unfold Split.normalize. now rewrite re_split_cut_all.
  - intros t0 rest H0 H Hf. unfold Split.normalize.
    now rewrite (re_split_cut_all _ Hf), (cut_all_join_with rest t0 H0 H).
Qed.

Lemma normalize_tokens_witness :
  In "|" Split.separators
  /\ ["Date"; ""; "Date"] <> []
  /\ Forall (fun t => Split.plain t = true) ["Date"; ""; "Date"]
  /\ Split.normalize "Date||Date" = ["date"; ""; "date"]
  /\ Forall (fun w => More.word w = true) ["a b"]
  /\ Split.normalize "a b, c d" = ["a b"; "c"; "d"]
  /\ More.comma_space_free "Date,int |text" = true
  /\ Split.normalize "Date,int |text" = ["date"; "int"; ""; "text"].
Proof.
  assert (Hs : In "|" Split.separators) by (cbn; tauto).
  assert (Hn : ["Date"; ""; "Date"] <> []) by discriminate.
  assert (Hp : Forall (fun t => Split.plain t = true) ["Date"; ""; "Date"])
    by (repeat constructor).
  assert (Hw : Forall (fun w => More.word w = true) ["a b"])
    by (repeat constructor).
  pose proof normalize_tokens as (_ & _ & H3 & _ & _ & H6 & H7 & _).
  repeat (split; [assumption|]).
  split; [exact (H3 "|" ["Date"; ""; "Date"] Hs Hn Hp)|].
  split; [exact Hw|].
  split; [exact (H6 ["a b"] "c d" Hw)|].
  split; [reflexivity|].
  exact (H7 "Date,int |text" eq_refl).
Defined.

(** ** The sweep, lines 28-60 *)

Section HookMore.
Import Json Py Utils Hook Contract.

Variable re_compile : string -> option Re.regex.

(** X4.  The case in which the type list and the ignore list are written
    does not matter: two calls whose list texts agree up to letter case
    are the same call. *)
Theorem list_texts_are_caseless (paths : list string)
    (pattern dtype dtype' : string) (catalog : dict) (flg : bool)
    (ign ign' : string) :
  Text.lower dtype = Text.lower dtype' ->
  Text.lower ign = Text.lower ign' ->
  check_column_name_contract re_compile paths pattern dtype catalog flg ign
  = check_column_name_contract re_compile paths pattern dtype' catalog flg
      ign'.
Proof.
  intros Hd Hi. unfold check_column_name_contract.
  now rewrite (normalize_case dtype dtype' Hd), (normalize_case ign ign' Hi).
Qed.

(** Whatever the column entry holds, judging it leaves the state as it
    was or sets the status and prints one line. *)
Lemma check_column_state (pattern : string)
    (dtype dtype_upper ign : list string) (flg : bool) (col : json)
    (st : state) :
  snd (check_column re_compile pattern dtype dtype_upper ign flg col st) = st
  \/ exists d,
       snd (check_column re_compile pattern dtype dtype_upper ign flg col st)
       = mkState 1 (stdout st ++ [d]).
Proof.
  unfold check_column, bind, attr_get, attr_lower, ret, raise, py_re_match,
    set_status, print.
  destruct col as [| | | | |d]; cbn [snd]; auto.
  destruct (lookup "name" d) as [[| | |n| |]|]; cbn [snd]; auto;
    destruct (lookup "type" d) as [[| | |t| |]|]; cbn [snd]; auto.
  destruct (Text.str_in (Text.lower t) dtype),
    (Text.str_in (Text.lower n) ign), (re_compile pattern) as [r|];
    cbn [negb snd]; auto;
    destruct (Re.re_match r (Text.lower n)), flg; unfold ret;
    cbn [negb andb snd status_code stdout]; auto;
    right; eexists; reflexivity.
Qed.

Lemma consistent_step (st : state) (d : diag) :
  More.consistent (mkState 1 (stdout st ++ [d])).
Proof.
  right. split; [reflexivity|]. cbn [stdout].
  intros E. apply (f_equal (@length diag)) in E.
  rewrite length_app in E. cbn [length] in E. lia.
Qed.

Lemma for_each_keeps {A : Type} (P : state -> Prop) (body : A -> M unit)
    (xs : list A) :
  (forall x st, P st -> P (snd (body x st))) ->
  forall st, P st -> P (snd (for_each xs body st)).
Proof.
  intros Hb. induction xs as [|x xs IH]; intros st Hst; [exact Hst|].
  cbn [for_each]. unfold bind. specialize (Hb x st Hst).
  destruct (body x st) as [[u|e] st']; cbn [snd] in *; [now apply IH|].
  exact Hb.
Qed.

Lemma check_model_keeps (pattern : string)
    (dtype dtype_upper ign : list string) (flg : bool) (m : Model)
    (st : state) :
  More.consistent st ->
  More.consistent
    (snd (check_model re_compile pattern dtype dtype_upper ign flg m st)).
Proof.
  intros Hst. unfold check_model, bind, attr_get, attr_values, ret, raise.
  destruct (node m) as [| | | | |d]; cbn [snd]; auto.
  destruct (lookup "columns" d) as [[| | | | |cols]|]; cbn [snd]; auto.
  apply for_each_keeps; [|exact Hst].
  intros col st0 H0.
  destruct (check_column_state pattern dtype dtype_upper ign flg col st0)
    as [->|(x & ->)]; [exact H0 | apply consistent_step].
Qed.

(** What a call that returns hands back. *)
Lemma call_returns_consistent (paths : list string) (pattern dtype : string)
    (catalog : dict) (flg : bool) (ign : string) (props : dict)
    (out : list diag) :
  call (check_column_name_contract re_compile paths pattern dtype catalog
          flg ign) = (Ok props, out) ->
  exists s, props = [("status_code", JNum s)]
    /\ ((s = 0%Z /\ out = []) \/ (s = 1%Z /\ out <> [])).
Proof.
  unfold call, check_column_name_contract, bind, set_status, get_status,
    ret.
  cbn [stdout].
  match goal with
  | |- context [for_each ?ms ?body ?st0] =>
      pose proof (for_each_keeps More.consistent body ms
                    (fun x st H => check_model_keeps _ _ _ _ _ x st H) st0)
        as K;
      destruct (for_each ms body st0) as [[u|e] st'] eqn:E
  end.
  - intros H. injection H as <- <-. exists (status_code st').
    split; [reflexivity|]. apply K. left. split; reflexivity.
  - discriminate.
Qed.

(** X5.  Without any assumption on the catalog or the pattern: a call that
    returns hands back [{"status_code": s}] with [s] 0 or 1, and [s] is 1
    exactly when at least one line has been printed. *)
Theorem status_is_one_iff_a_line_is_printed (paths : list string)
    (pattern dtype : string) (catalog : dict) (flg : bool) (ign : string)
    (props : dict) (out : list diag) :
  call (check_column_name_contract re_compile paths pattern dtype catalog
          flg ign) = (Ok props, out) ->
  exists s, props = [("status_code", JNum s)]
    /\ (s = 0%Z \/ s = 1%Z)
    /\ (s = 1%Z <-> out <> []).
Proof.
  intros H. apply call_returns_consistent in H.
  destruct H as (s & -> & [[-> ->]|[-> Hne]]).
  - exists 0%Z. repeat split; auto; try discriminate. intros X. now elim X.
  - exists 1%Z. repeat split; auto.
Qed.

(** A column entry that is not a mapping with a string name and a string
    type raises at once. *)
Lemma check_column_ill (pattern : string)
    (dtype dtype_upper ign : list string) (flg : bool) (col : json)
    (st : state) :
  read_column col = None ->
  check_column re_compile pattern dtype dtype_upper ign flg col st
  = (Raise AttributeError, st).
Proof.
  intros H. unfold check_column, bind, attr_get, attr_lower, ret, raise.
  destruct col as [| | | | |d]; try reflexivity.
  cbn [read_column] in H.
  destruct (lookup "name" d) as [[| | |n| |]|]; try reflexivity;
    destruct (lookup "type" d) as [[| | |t| |]|]; try reflexivity;
    discriminate.
Qed.

Lemma for_each_columns_ill (pattern : string) (r : Re.regex)
    (dtype ign : list string) (flg : bool) (cols : list json) :
  re_compile pattern = Some r ->
  read_columns cols = None ->
  forall st, exists st',
    for_each cols
      (check_column re_compile pattern dtype (Split.display dtype) ign flg) st
    = (Raise AttributeError, st').
Proof.
  intros Hr. induction cols as [|col cols IH]; intros H st; [discriminate|].
  cbn [read_columns] in H. cbn [for_each]. unfold bind.
  destruct (read_column col) as [c|] eqn:Hc.
  - rewrite (check_column_wf re_compile pattern r dtype ign flg col c st
               Hr Hc).
    destruct (read_columns cols); [discriminate|]. now apply IH.
  - rewrite (check_column_ill pattern dtype _ ign flg col st Hc).
    now exists st.
Qed.

Lemma check_model_ill (pattern : string) (r : Re.regex)
    (dtype ign : list string) (flg : bool) (m : Model) :
  re_compile pattern = Some r ->
  read_model m = None ->
  forall st, exists st',
    check_model re_compile pattern dtype (Split.display dtype) ign flg m st
    = (Raise AttributeError, st').
Proof.
  intros Hr H st. unfold read_model in H.
  unfold check_model, bind, attr_get, attr_values, ret, raise.
  destruct (node m) as [| | | | |d]; try (now exists st).
  destruct (lookup "columns" d) as [[| | | | |cols]|]; try (now exists st).
  now apply for_each_columns_ill with (r := r).
Qed.

Lemma for_each_models_ill (pattern : string) (r : Re.regex)
    (dtype ign : list string) (flg : bool) (ms : list Model) :
  re_compile pattern = Some r ->
  read_models ms = None ->
  forall st, exists st',
    for_each ms
      (check_model re_compile pattern dtype (Split.display dtype) ign flg) st
    = (Raise AttributeError, st').
Proof.
  intros Hr. induction ms as [|m ms IH]; intros H st; [discriminate|].
  cbn [read_models] in H. cbn [for_each]. unfold bind.
  destruct (read_model m) as [xs|] eqn:Hm.
  - rewrite (check_model_wf re_compile pattern r dtype ign flg m xs st
               Hr Hm).
    destruct (read_models ms); [discriminate|]. now apply IH.
  - destruct (check_model_ill pattern r dtype ign flg m Hr Hm st)
      as (st' & ->).
    now exists st'.
Qed.

(** X6.  With a pattern that compiles, the call raises [AttributeError]
    exactly when some in-scope model is ill formed: its entry is no
    mapping, it has no column mapping, or one of its columns lacks a string
    name or a string type.  Otherwise it returns. *)
Theorem ill_formed_scope_raises (paths : list string)
    (pattern dtype : string) (catalog : dict) (flg : bool) (ign : string)
    (r : Re.regex) :
  re_compile pattern = Some r ->
  (columns_in_scope paths catalog = None <->
   exists out,
     call (check_column_name_contract re_compile paths pattern dtype catalog
             flg ign) = (Raise AttributeError, out)).
Proof.
  intros Hr. split.
  - intros H. unfold columns_in_scope in H.
    unfold call, check_column_name_contract, bind, set_status.
    match goal with
    | |- context [for_each ?ms (check_model _ _ ?dl _ ?il _) ?st0] =>
        destruct (for_each_models_ill pattern r dl il flg ms Hr H st0)
          as (st' & ->)
    end.
    now exists (stdout st').
  - intros (out & H).
    destruct (columns_in_scope paths catalog) as [cs|] eqn:E;
      [|reflexivity].
    rewrite (call_wf re_compile paths pattern dtype catalog flg ign r cs
               Hr E) in H.
    discriminate.
Qed.

(** With a pattern that does not compile, a well-formed column raises
    [re.error] unless its name is on the ignore list. *)
Lemma check_column_no_pattern (pattern : string)
    (dtype dtype_upper ign : list string) (flg : bool) (col : json)
    (c : column) (st : state) :
  re_compile pattern = None ->
  read_column col = Some c ->
  check_column re_compile pattern dtype dtype_upper ign flg col st
  = if More.ignored ign c then (Ok tt, st) else (Raise ReError, st).
Proof.
  intros Hr Hc. destruct col as [| | | | |d]; try discriminate.
  cbn [read_column] in Hc.
  destruct (lookup "name" d) as [[| | |n| |]|] eqn:Hn; try discriminate.
  destruct (lookup "type" d) as [[| | |t| |]|] eqn:Ht; try discriminate.
  injection Hc as <-. unfold More.ignored. cbn [col_name].
  unfold check_column, bind, attr_get, attr_lower, ret, raise, py_re_match.
  rewrite Hn, Ht, Hr.
  now destruct (Text.str_in (Text.lower t) dtype),
    (Text.str_in (Text.lower n) ign).
Qed.

Lemma for_each_columns_no_pattern (pattern : string)
    (dtype dtype_upper ign : list string) (flg : bool) (cols : list json) :
  re_compile pattern = None ->
  forall cs st,
    read_columns cols = Some cs ->
    for_each cols
      (check_column re_compile pattern dtype dtype_upper ign flg) st
    = if forallb (More.ignored ign) cs then (Ok tt, st)
      else (Raise ReError, st).
Proof.
  intros Hr. induction cols as [|col cols IH]; intros cs st H.
  - injection H as <-. reflexivity.
  - cbn [read_columns] in H.
    destruct (read_column col) as [c|] eqn:Hc; [|discriminate].
    destruct (read_columns cols) as [cs'|] eqn:Hcs; [|discriminate].
    injection H as <-. cbn [for_each forallb]. unfold bind.
    rewrite (check_column_no_pattern pattern dtype dtype_upper ign flg col c
               st Hr Hc).
    destruct (More.ignored ign c); cbn [andb]; [|reflexivity].
    now apply IH.
Qed.

Lemma for_each_models_no_pattern (pattern : string)
    (dtype dtype_upper ign : list string) (flg : bool) (ms : list Model) :
  re_compile pattern = None ->
  forall cs st,
    read_models ms = Some cs ->
    for_each ms
      (check_model re_compile pattern dtype dtype_upper ign flg) st
    = if forallb (More.ignored ign) cs then (Ok tt, st)
      else (Raise ReError, st).
Proof.
  intros Hr. induction ms as [|m ms IH]; intros cs st H.
  - injection H as <-. reflexivity.
  - cbn [read_models] in H.
    destruct (read_model m) as [xs|] eqn:Hm; [|discriminate].
    destruct (read_models ms) as [ys|] eqn:Hms; [|discriminate].
    injection H as <-. cbn [for_each]. unfold bind.
    rewrite forallb_app.
    assert (X : check_model re_compile pattern dtype dtype_upper ign flg m st
                = if forallb (More.ignored ign) xs then (Ok tt, st)
                  else (Raise ReError, st)).
    { unfold read_model in Hm. unfold check_model, bind, attr_get,
        attr_values, ret.
      destruct (node m) as [| | | | |d]; try discriminate.
      destruct (lookup "columns" d) as [[| | | | |cols]|]; try discriminate.
      now apply for_each_columns_no_pattern. }
    rewrite X. destruct (forallb (More.ignored ign) xs); cbn [andb];
      [|reflexivity].
    now apply IH.
Qed.

(** X7.  A pattern that does not compile is only noticed when the sweep
    reaches a column that is not on the ignore list: on a well-formed
    catalog the call then raises [re.error] with nothing printed, and when
    every in-scope column is ignored (or there is none) it returns status
    0. *)
Theorem bad_pattern_raises_at_first_tested_column (paths : list string)
    (pattern dtype : string) (catalog : dict) (flg : bool) (ign : string)
    (cs : list column) :
  re_compile pattern = None ->
  columns_in_scope paths catalog = Some cs ->
  call (check_column_name_contract re_compile paths pattern dtype catalog
          flg ign)
  = if forallb (More.ignored (Split.normalize ign)) cs
    then (Ok [("status_code", JNum 0)], [])
    else (Raise ReError, []).
Proof.
  intros Hr Hcs. unfold columns_in_scope in Hcs.
  unfold call, check_column_name_contract, bind, set_status, get_status,
    ret.
  rewrite (for_each_models_no_pattern pattern _ _ _ flg _ Hr cs _ Hcs).
  now destruct (forallb (More.ignored (Split.normalize ign)) cs).
Qed.

(** X8.  Ignoring more names never adds a line or raises the status: if
    every token of one ignore list is a token of another, the call with
    the larger list prints only lines the other call prints too, and its
    status is not greater. *)
Theorem ignoring_more_never_adds (paths : list string)
    (pattern dtype : string) (catalog : dict) (flg : bool) (ign ign' : string)
    (r : Re.regex) (cs : list column) :
  re_compile pattern = Some r ->
  columns_in_scope paths catalog = Some cs ->
  (forall t, In t (Split.normalize ign) -> In t (Split.normalize ign')) ->
  exists s s' out out',
    call (check_column_name_contract re_compile paths pattern dtype catalog
            flg ign) = (Ok [("status_code", JNum s)], out)
    /\ call (check_column_name_contract re_compile paths pattern dtype
               catalog flg ign') = (Ok [("status_code", JNum s')], out')
    /\ (s' <= s)%Z
    /\ incl out' out.
Proof.
  intros Hr Hcs Hsub.
  set (p := params_of_call pattern r dtype flg ign).
  set (p' := params_of_call pattern r dtype flg ign').
  exists (status p cs), (status p' cs), (diagnostics p cs),
    (diagnostics p' cs).
  split; [exact (call_wf re_compile paths pattern dtype catalog flg ign r cs
                   Hr Hcs)|].
  split; [exact (call_wf re_compile paths pattern dtype catalog flg ign' r
                   cs Hr Hcs)|].
  assert (V : forall c, violation p' c = true -> violation p c = true).
  { intros c. unfold violation, forward_violation, reverse_violation, p, p'.
    cbn [params_of_call dtype_list ignore_list pattern_flag
         Contract.pattern].
    destruct (Text.str_in (col_name c) (Split.normalize ign)) eqn:E.
    - apply str_in_In, Hsub, str_in_In in E. rewrite E. cbn [negb andb].
      now rewrite !andb_false_r.
    - cbn [negb].
      destruct (Text.str_in (col_name c) (Split.normalize ign'));
        cbn [negb andb]; [|trivial].
      rewrite !andb_false_r. discriminate. }
  assert (D : forall c, diagnostic p' c = diagnostic p c) by reflexivity.
  split.
  - unfold status.
    destruct (existsb (violation p' ) cs) eqn:E'; [|
      destruct (existsb (violation p) cs); lia].
    apply existsb_exists in E'. destruct E' as (c & Hin & Hv).
    assert (X : existsb (violation p) cs = true).
    { apply existsb_exists. exists c. auto. }
    rewrite X. lia.
  - intros d Hd. unfold diagnostics in *.
    apply in_map_iff in Hd. destruct Hd as (c & <- & Hc).
    apply filter_In in Hc. destruct Hc as [Hin Hv].
    rewrite D. apply in_map, filter_In. auto.
Qed.

Lemma violation_with_flag (pattern : string) (r : Re.regex)
    (dtype ign : list string) (c : column) :
  violation (mkParams pattern r dtype ign true) c
  = violation (mkParams pattern r dtype ign false) c
    && More.is_pattern_without_type
         (diagnostic (mkParams pattern r dtype ign false) c).
Proof.
  unfold violation, forward_violation, reverse_violation, diagnostic.
  cbn [dtype_list ignore_list pattern_flag Contract.pattern pattern_text].
  now destruct (Text.str_in (col_type c) dtype),
    (Text.str_in (col_name c) ign), (Re.re_match r (col_name c)).
Qed.

Lemma diagnostics_with_flag (pattern : string) (r : Re.regex)
    (dtype ign : list string) (cs : list column) :
  diagnostics (mkParams pattern r dtype ign true) cs
  = filter More.is_pattern_without_type
      (diagnostics (mkParams pattern r dtype ign false) cs).
Proof.
  unfold diagnostics. induction cs as [|c cs IH]; [reflexivity|].
  cbn [filter]. rewrite violation_with_flag.
  destruct (violation (mkParams pattern r dtype ign false) c);
    cbn [andb map filter]; [|exact IH].
  change (diagnostic (mkParams pattern r dtype ign true) c)
    with (diagnostic (mkParams pattern r dtype ign false) c).
  destruct (More.is_pattern_without_type
              (diagnostic (mkParams pattern r dtype ign false) c));
    cbn [map]; now rewrite IH.
Qed.

(** X9.  With [pattern_flg] on, the call prints exactly the
    [PatternWithoutType] lines of the call with it off, in the same
    order. *)
Theorem pattern_flg_keeps_reverse_lines (paths : list string)
    (pattern dtype : string) (catalog : dict) (ign : string) (r : Re.regex)
    (cs : list column) :
  re_compile pattern = Some r ->
  columns_in_scope paths catalog = Some cs ->
  exists s_off out_off s_on,
    call (check_column_name_contract re_compile paths pattern dtype catalog
            false ign) = (Ok [("status_code", JNum s_off)], out_off)
    /\ call (check_column_name_contract re_compile paths pattern dtype
               catalog true ign)
       = (Ok [("status_code", JNum s_on)],
          filter More.is_pattern_without_type out_off).
Proof.
  intros Hr Hcs.
  exists (status (params_of_call pattern r dtype false ign) cs),
    (diagnostics (params_of_call pattern r dtype false ign) cs),
    (status (params_of_call pattern r dtype true ign) cs).
  split; [exact (call_wf re_compile paths pattern dtype catalog false ign r
                   cs Hr Hcs)|].
  rewrite (call_wf re_compile paths pattern dtype catalog true ign r cs
             Hr Hcs).
  unfold params_of_call. now rewrite diagnostics_with_flag.
Qed.

End HookMore.

(** ** The entry point, lines 63-136 *)

Section MainMore.
Import Json Py Utils Hook.

Variable re_compile : string -> option Re.regex.
Variable get_json : string -> string + dict.

Lemma bool_of_str_true (s : string) : s <> "" -> Main.bool_of_str s = true.
Proof.
  intros H. unfold Main.bool_of_str. apply String.eqb_neq in H.
  now rewrite H.
Qed.

(** X10.  [--pattern_flg] is declared with [type=bool], so every
    non-empty text given for it, ["false"] and ["0"] included, turns the
    flag on: the run is the run with ["True"]. *)
Theorem any_text_turns_pattern_flg_on (a : Main.args) (w : Main.world)
    (s : string) :
  s <> "" ->
  Main.pattern_flg_value (Some s) = true
  /\ Main.main re_compile get_json (Main.with_pattern_flg (Some s) a) w
     = Main.main re_compile get_json (Main.with_pattern_flg (Some "True") a)
         w.
Proof.
  intros H. split; [now apply bool_of_str_true|].
  unfold Main.main, Main.with_pattern_flg.
  cbn [Main.filenames Main.manifest Main.catalog Main.pattern Main.dtype
       Main.pattern_flg Main.col_name_ignore Main.is_test
       Main.pattern_flg_value].
  now rewrite (bool_of_str_true s H).
Qed.

(** X11.  [main] calls the tracker at most once, and only after the hook
    has returned: the event then carries the loaded manifest and the very
    status [main] returns.  When a file cannot be loaded or the hook
    raises, nothing is tracked. *)
Theorem main_tracks_only_a_returned_status (a : Main.args) (w w' : Main.world)
    (res : result json) :
  Main.main re_compile get_json a w = (res, w') ->
  (exists ev,
     Main.tracked w' = (Main.tracked w ++ [ev])%list
     /\ res = Ok (Main.status ev)
     /\ get_json (Main.manifest a) = inr (Main.event_manifest ev)
     /\ (exists c, get_json (Main.catalog a) = inr c)
     /\ Main.event_name ev = "Hook Executed"
     /\ Main.is_pytest ev = Main.is_test a)
  \/ (Main.tracked w' = Main.tracked w
      /\ ((exists e, get_json (Main.manifest a) = inl e)
          \/ (exists e, get_json (Main.catalog a) = inl e)
          \/ (exists e, res = Raise e))).
Proof.
  unfold Main.main.
  destruct (get_json (Main.manifest a)) as [e|mf] eqn:Em.
  - intros H. injection H as <- <-. right. split; [reflexivity|].
    left. now exists e.
  - destruct (get_json (Main.catalog a)) as [e|ct] eqn:Ec.
    + intros H. injection H as <- <-. right. split; [reflexivity|].
      right. left. now exists e.
    + destruct (check_column_name_contract _ _ _ _ _ _ _ _)
        as [[props|e] st].
      * intros H. injection H as <- <-. left. eexists.
        cbn [Main.tracked Main.status Main.event_manifest Main.event_name
             Main.is_pytest].
        repeat split. now exists ct.
      * intros H. injection H as <- <-. right. split; [reflexivity|].
        right. right. now exists e.
Qed.

(** X12.  When [main] returns, it returns 0 or 1: 0 exactly when this run
    printed nothing (both files were loaded and no column violated the
    contract), 1 when it printed a line, be it a load failure or a
    violation. *)
Theorem main_returns_zero_iff_silent (a : Main.args) (w w' : Main.world)
    (v : json) :
  Main.main re_compile get_json a w = (Ok v, w') ->
  (v = JNum 0 /\ Main.printed w' = Main.printed w
   /\ (exists m, get_json (Main.manifest a) = inr m)
   /\ (exists c, get_json (Main.catalog a) = inr c))
  \/ (v = JNum 1
      /\ exists l ls, Main.printed w' = (Main.printed w ++ l :: ls)%list).
Proof.
  unfold Main.main.
  destruct (get_json (Main.manifest a)) as [e|mf] eqn:Em.
  - intros H. injection H as <- <-. right. split; [reflexivity|].
    now exists (Main.Unable_to_load_manifest e), [].
  - destruct (get_json (Main.catalog a)) as [e|ct] eqn:Ec.
    + intros H. injection H as <- <-. right. split; [reflexivity|].
      now exists (Main.Unable_to_load_catalog e), [].
    + destruct (check_column_name_contract re_compile (Main.filenames a)
                  (Main.pattern a) (Main.dtype a) ct
                  (Main.pattern_flg_value (Main.pattern_flg a))
                  (Main.col_name_ignore_value (Main.col_name_ignore a))
                  (mkState 0 [])) as [[props|e] st] eqn:E;
        [|discriminate].
      intros H. injection H as <- <-.
      assert (C : call (check_column_name_contract re_compile
                          (Main.filenames a) (Main.pattern a) (Main.dtype a)
                          ct (Main.pattern_flg_value (Main.pattern_flg a))
                          (Main.col_name_ignore_value
                             (Main.col_name_ignore a)))
                  = (Ok props, stdout st)).
      { unfold call. now rewrite E. }
      apply call_returns_consistent in C.
      destruct C as (s & -> & [[-> Hout]|[-> Hout]]).
      * left. cbn [Main.printed]. rewrite Hout. cbn [map].
        rewrite app_nil_r. repeat split; [now exists mf | now exists ct].
      * right. split; [reflexivity|]. cbn [Main.printed].
        destruct (stdout st) as [|d ds]; [now elim Hout|].
        now exists (Main.Hook_line d), (map Main.Hook_line ds).
Qed.

End MainMore.

(** ** The further properties at work on the small project *)

Section MoreWitnesses.
Import Json Py Utils Hook Contract.

Lemma tokens_hold_no_comma_no_pipe_witness :
  In "timestamp" (Split.normalize "Date,|TIMESTAMP")
  /\ Text.has_char Split.comma "timestamp" = false
  /\ Text.has_char Split.pipe "timestamp" = false.
Proof.
  assert (H : In "timestamp" (Split.normalize "Date,|TIMESTAMP")).
  { right. right. left. reflexivity. }
  split; [exact H|].
  exact (tokens_hold_no_comma_no_pipe "Date,|TIMESTAMP" "timestamp" H).
Defined.

Lemma no_comma_every_space_separates_witness :
  Text.has_char Split.comma "timestamp without time zone|date" = false
  /\ Forall (fun t => Split.plain t = true)
       (Split.normalize "timestamp without time zone|date").
Proof.
  split; [reflexivity|].
  exact (no_comma_every_space_separates "timestamp without time zone|date"
           eq_refl).
Defined.

Lemma words_before_comma_space_are_one_token_witness :
  More.word "timestamp without time zone" = true
  /\ Split.re_split "timestamp without time zone, date"
     = ["timestamp without time zone"; "date"].
Proof.
  split; [reflexivity|].
  exact (words_before_comma_space_are_one_token
           "timestamp without time zone" "date" eq_refl).
Defined.

Lemma list_texts_are_caseless_witness :
  Text.lower "DATE" = Text.lower "date"
  /\ Text.lower "Created_At" = Text.lower "created_at"
  /\ check_column_name_contract Demo.compile Demo.paths "^dt_" "DATE"
       Demo.catalog false "Created_At"
     = check_column_name_contract Demo.compile Demo.paths "^dt_" "date"
         Demo.catalog false "created_at".
Proof.
  split; [reflexivity|]. split; [reflexivity|].
  exact (list_texts_are_caseless Demo.compile Demo.paths "^dt_" "DATE" "date"
           Demo.catalog false "Created_At" "created_at" eq_refl eq_refl).
Defined.

Lemma status_is_one_iff_a_line_is_printed_witness :
  call (check_column_name_contract Demo.compile Demo.paths "^dt_" "date"
          Demo.catalog true "")
  = (Ok [("status_code", JNum 1)],
     [PatternWithoutType "dt_flag" "^dt_" "boolean" ["DATE"]])
  /\ exists s,
       [("status_code", JNum 1)] = [("status_code", JNum s)]
       /\ (s = 0%Z \/ s = 1%Z)
       /\ (s = 1%Z <->
           [PatternWithoutType "dt_flag" "^dt_" "boolean" ["DATE"]] <> []).
Proof.
  split; [reflexivity|].
  exact (status_is_one_iff_a_line_is_printed Demo.compile Demo.paths "^dt_"
           "date" Demo.catalog true "" _ _ eq_refl).
Defined.

Lemma ill_formed_scope_raises_witness :
  Demo.compile "^dt_" = Some (Re.Cat Re.Bol (Re.lit "dt_"))
  /\ columns_in_scope Demo.paths_with_bare Demo.catalog = None
  /\ exists out,
       call (check_column_name_contract Demo.compile Demo.paths_with_bare
               "^dt_" "date" Demo.catalog false "")
       = (Raise AttributeError, out).
Proof.
  split; [reflexivity|]. split; [reflexivity|].
  exact (proj1 (ill_formed_scope_raises Demo.compile Demo.paths_with_bare
                  "^dt_" "date" Demo.catalog false ""
                  (Re.Cat Re.Bol (Re.lit "dt_")) eq_refl) eq_refl).
Defined.

Lemma bad_pattern_raises_at_first_tested_column_witness :
  Demo.compile "dt_(" = None
  /\ columns_in_scope ["models/staging/customers.sql"] Demo.catalog
     = Some [mkColumn "signup" "date"]
  /\ call (check_column_name_contract Demo.compile
             ["models/staging/customers.sql"] "dt_(" "date" Demo.catalog
             false "")
     = (Raise ReError, [])
  /\ call (check_column_name_contract Demo.compile
             ["models/staging/customers.sql"] "dt_(" "date" Demo.catalog
             false "signup")
     = (Ok [("status_code", JNum 0)], []).
Proof.
  split; [reflexivity|]. split; [reflexivity|]. split.
  - exact (bad_pattern_raises_at_first_tested_column Demo.compile
             ["models/staging/customers.sql"] "dt_(" "date" Demo.catalog
             false "" [mkColumn "signup" "date"] eq_refl eq_refl).
  - exact (bad_pattern_raises_at_first_tested_column Demo.compile
             ["models/staging/customers.sql"] "dt_(" "date" Demo.catalog
             false "signup" [mkColumn "signup" "date"] eq_refl eq_refl).
Defined.

Lemma ignoring_more_never_adds_witness :
  Demo.compile "^dt_" = Some (Re.Cat Re.Bol (Re.lit "dt_"))
  /\ columns_in_scope Demo.paths Demo.catalog
     = Some [mkColumn "created_at" "date"; mkColumn "dt_flag" "boolean";
             mkColumn "dt_created" "date"; mkColumn "signup" "date"]
  /\ (forall t, In t (Split.normalize "signup") ->
        In t (Split.normalize "dt_flag,signup"))
  /\ exists s s' out out',
       call (check_column_name_contract Demo.compile Demo.paths "^dt_"
               "date" Demo.catalog false "signup")
       = (Ok [("status_code", JNum s)], out)
       /\ call (check_column_name_contract Demo.compile Demo.paths "^dt_"
                  "date" Demo.catalog false "dt_flag,signup")
          = (Ok [("status_code", JNum s')], out')
       /\ (s' <= s)%Z
       /\ incl out' out.
Proof.
  assert (H : forall t, In t (Split.normalize "signup") ->
                In t (Split.normalize "dt_flag,signup")).
  { intros t [<-|[]]. right. left. reflexivity. }
  split; [reflexivity|]. split; [reflexivity|]. split; [exact H|].
  exact (ignoring_more_never_adds Demo.compile Demo.paths "^dt_" "date"
           Demo.catalog false "signup" "dt_flag,signup" _ _ eq_refl eq_refl
           H).
Defined.

Lemma pattern_flg_keeps_reverse_lines_witness :
  Demo.compile "^dt_" = Some (Re.Cat Re.Bol (Re.lit "dt_"))
  /\ columns_in_scope Demo.paths Demo.catalog
     = Some [mkColumn "created_at" "date"; mkColumn "dt_flag" "boolean";
             mkColumn "dt_created" "date"; mkColumn "signup" "date"]
  /\ exists s_off out_off s_on,
       call (check_column_name_contract Demo.compile Demo.paths "^dt_"
               "date" Demo.catalog false "")
       = (Ok [("status_code", JNum s_off)], out_off)
       /\ call (check_column_name_contract Demo.compile Demo.paths "^dt_"
                  "date" Demo.catalog true "")
          = (Ok [("status_code", JNum s_on)],
             filter More.is_pattern_without_type out_off).
Proof.
  split; [reflexivity|]. split; [reflexivity|].
  exact (pattern_flg_keeps_reverse_lines Demo.compile Demo.paths "^dt_"
           "date" Demo.catalog "" _ _ eq_refl eq_refl).
Defined.

Lemma any_text_turns_pattern_flg_on_witness :
  "false" <> ""
  /\ Main.pattern_flg_value (Some "false") = true
  /\ Main.main Demo.compile DemoRun.get_json
       (Main.with_pattern_flg (Some "false") DemoRun.args) DemoRun.fresh
     = Main.main Demo.compile DemoRun.get_json
         (Main.with_pattern_flg (Some "True") DemoRun.args) DemoRun.fresh.
Proof.
  assert (H : "false" <> "") by discriminate.
  split; [exact H|].
  exact (any_text_turns_pattern_flg_on Demo.compile DemoRun.get_json
           DemoRun.args DemoRun.fresh "false" H).
Defined.

Lemma main_tracks_only_a_returned_status_witness :
  Main.main Demo.compile DemoRun.get_json DemoRun.args DemoRun.fresh
  = (Ok (JNum 1),
     Main.mkWorld
       [Main.Hook_line (TypeWithoutPattern "created_at" ["DATE"] "^dt_");
        Main.Hook_line
          (PatternWithoutType "dt_flag" "^dt_" "boolean" ["DATE"]);
        Main.Hook_line (TypeWithoutPattern "signup" ["DATE"] "^dt_")]
       [Main.mkEvent "Hook Executed" DemoRun.manifest_json
          "check_column_name_contract.py"
          "Check column name abides to contract." (JNum 1) JNull])
  /\ ((exists ev,
         [Main.mkEvent "Hook Executed" DemoRun.manifest_json
            "check_column_name_contract.py"
            "Check column name abides to contract." (JNum 1) JNull]
         = ([] ++ [ev])%list
         /\ Ok (JNum 1) = Ok (Main.status ev)
         /\ DemoRun.get_json "target/manifest.json"
            = inr (Main.event_manifest ev)
         /\ (exists c, DemoRun.get_json "target/catalog.json" = inr c)
         /\ Main.event_name ev = "Hook Executed"
         /\ Main.is_pytest ev = JNull)
      \/ ([Main.mkEvent "Hook Executed" DemoRun.manifest_json
             "check_column_name_contract.py"
             "Check column name abides to contract." (JNum 1) JNull] = []
          /\ ((exists e, DemoRun.get_json "target/manifest.json" = inl e)
              \/ (exists e, DemoRun.get_json "target/catalog.json" = inl e)
              \/ (exists e, Ok (JNum 1) = Raise e)))).
Proof.
  split; [reflexivity|].
  exact (main_tracks_only_a_returned_status Demo.compile DemoRun.get_json
           DemoRun.args DemoRun.fresh _ _ eq_refl).
Defined.

Lemma main_returns_zero_iff_silent_witness :
  Main.main Demo.compile DemoRun.get_json DemoRun.quiet_args DemoRun.fresh
  = (Ok (JNum 0),
     Main.mkWorld []
       [Main.mkEvent "Hook Executed" DemoRun.manifest_json
          "check_column_name_contract.py"
          "Check column name abides to contract." (JNum 0) JNull])
  /\ ((JNum 0 = JNum 0 /\ @nil Main.line = []
       /\ (exists m, DemoRun.get_json "target/manifest.json" = inr m)
       /\ (exists c, DemoRun.get_json "target/catalog.json" = inr c))
      \/ (JNum 0 = JNum 1
          /\ exists l ls, @nil Main.line = ([] ++ l :: ls)%list)).
Proof.
  split; [reflexivity|].
  exact (main_returns_zero_iff_silent Demo.compile DemoRun.get_json
           DemoRun.quiet_args DemoRun.fresh _ _ eq_refl).
Defined.

End MoreWitnesses.
